(** * The flair bot: comment harvesting, channel verification, tier badges

    A shallow embedding of [src/main.ts] (module [Main]) and of the earlier
    revision of the same script kept beside it (module [Part000]), with the
    JavaScript values they handle: strings as sequences of UTF-16 code units,
    numbers as extended rationals with [NaN], promises as computations over
    an explicit world that may throw. *)

From Stdlib Require Import Ascii String DecimalString.
From Stdlib Require Import List Bool Arith ZArith NArith QArith Lia.
Import ListNotations.

Close Scope Q_scope.

Set Implicit Arguments.

(** ** JavaScript strings *)

Module JS.

(** A string is its sequence of UTF-16 code units. *)
Definition jsstring := list N.

Fixpoint lit (s : string) : jsstring :=
  match s with
  | EmptyString => []
  | String c s' => N_of_ascii c :: lit s'
  end.

Arguments lit s%_string.

Fixpoint streq (a b : jsstring) : bool :=
  match a, b with
  | [], [] => true
  | x :: a', y :: b' => N.eqb x y && streq a' b'
  | _, _ => false
  end.

(** [s.length] is non-zero, the truthiness of a string. *)
Definition truthy (s : jsstring) : bool :=
  match s with [] => false | _ :: _ => true end.

(** Truthiness of a property that may be [undefined]. *)
Definition truthy_opt (o : option jsstring) : bool :=
  match o with Some s => truthy s | None => false end.

(** [`${x}`] of a property that may be [undefined]. *)
Definition interp (o : option jsstring) : jsstring :=
  match o with Some s => s | None => lit "undefined" end.

(** [s.startsWith(p)]; on success the rest of [s] after [p]. *)
Fixpoint strip (p s : jsstring) : option jsstring :=
  match p with
  | [] => Some s
  | x :: p' =>
      match s with
      | [] => None
      | y :: s' => if N.eqb x y then strip p' s' else None
      end
  end.

Definition startsWith (p s : jsstring) : bool :=
  match strip p s with Some _ => true | None => false end.

(** [s.includes(p)]. *)
Fixpoint includes (p s : jsstring) : bool :=
  startsWith p s ||
  match s with
  | [] => false
  | _ :: s' => includes p s'
  end.

(** [s.replace(p, r)] for a string pattern [p] and a replacement [r] without
    [$]: the first occurrence only. *)
Fixpoint replace (p r s : jsstring) : jsstring :=
  match strip p s with
  | Some rest => r ++ rest
  | None =>
      match s with
      | [] => []
      | c :: s' => c :: replace p r s'
      end
  end.

(** [s.split(sep)] for a non-empty separator: [skip] counts the units of a
    separator still to be passed over, [cur] is the current piece, reversed. *)
Fixpoint splitGo (sep : jsstring) (skip : nat) (cur s : jsstring)
  : list jsstring :=
  match s with
  | [] => [rev cur]
  | c :: s' =>
      match skip with
      | S k => splitGo sep k cur s'
      | O =>
          if startsWith sep s
          then rev cur :: splitGo sep (length sep - 1) [] s'
          else splitGo sep 0 (c :: cur) s'
      end
  end.

Definition split (sep s : jsstring) : list jsstring :=
  match sep with
  | [] => map (fun c => [c]) s
  | _ :: _ => splitGo sep 0 [] s
  end.

(** [a.join(sep)]. *)
Fixpoint join (sep : jsstring) (l : list jsstring) : jsstring :=
  match l with
  | [] => []
  | [x] => x
  | x :: l' => x ++ sep ++ join sep l'
  end.

(** *** The regular expressions of the script

    Both link patterns have the shape: a sequence of literals, dots and
    optional literal groups, followed by one greedy negated class. *)

Inductive item :=
| Lit (l : jsstring)      (* literal characters *)
| Dot                     (* [.]: any unit but a line terminator *)
| Opt (l : jsstring).     (* [(l)?], greedy *)

Record regex := { reHead : list item; reTailStop : N -> bool }.

Definition lineTerminator (c : N) : bool :=
  existsb (N.eqb c) [10; 13; 8232; 8233]%N.

(** [\s]: WhiteSpace and LineTerminator of ECMAScript. *)
Definition whiteSpace (c : N) : bool :=
  existsb (N.eqb c)
    [9; 10; 11; 12; 13; 32; 160; 5760; 8232; 8233; 8239; 8287; 12288; 65279]%N
  || (N.leb 8192 c && N.leb c 8202).

(** The units excluded by [[^\s\[\])(]]. *)
Definition linkStop (c : N) : bool :=
  whiteSpace c || existsb (N.eqb c) (lit "[])(").

Fixpoint takeWhileNot (stop : N -> bool) (s : jsstring) : jsstring :=
  match s with
  | [] => []
  | c :: s' => if stop c then [] else c :: takeWhileNot stop s'
  end.

(** Match [its] then the class at the start of [s]; the matched text. *)
Fixpoint matchHere (its : list item) (stop : N -> bool) (s : jsstring)
  : option jsstring :=
  match its with
  | [] => Some (takeWhileNot stop s)
  | Lit l :: its' =>
      match strip l s with
      | Some rest => option_map (app l) (matchHere its' stop rest)
      | None => None
      end
  | Dot :: its' =>
      match s with
      | c :: rest =>
          if lineTerminator c then None
          else option_map (cons c) (matchHere its' stop rest)
      | [] => None
      end
  | Opt l :: its' =>
      let without := matchHere its' stop s in
      match strip l s with
      | Some rest =>
          match matchHere its' stop rest with
          | Some m => Some (l ++ m)
          | None => without
          end
      | None => without
      end
  end.

(** [s.match(r)?.[0]] for a pattern without the [g] flag: the leftmost
    match, [None] for [null]. *)
Fixpoint regexMatch (r : regex) (s : jsstring) : option jsstring :=
  match matchHere (reHead r) (reTailStop r) s with
  | Some m => Some m
  | None =>
      match s with
      | [] => None
      | _ :: s' => regexMatch r s'
      end
  end.

(** ** JavaScript numbers

    The values of a double are rationals, the two infinities and [NaN]; the
    two zeros are not told apart. *)

Inductive number :=
| NaN
| NInf
| Fin (q : Q)
| PInf.

(** [a >= b]. *)
Definition ge (a b : number) : bool :=
  match a, b with
  | NaN, _ | _, NaN => false
  | _, NInf => true
  | PInf, _ => true
  | Fin x, Fin y => Qle_bool y x
  | _, _ => false
  end.

Definition ofZ (z : Z) : number := Fin (inject_Z z).

Definition digit (c : N) : option Z :=
  if N.leb 48 c && N.leb c 57 then Some (Z.of_N c - 48)%Z else None.

(** The value of a string of decimal digits, read from the left. *)
Fixpoint digitsValue (acc : Z) (s : jsstring) : option Z :=
  match s with
  | [] => Some acc
  | c :: s' =>
      match digit c with
      | Some d => digitsValue (10 * acc + d)%Z s'
      | None => None
      end
  end.

(** [+s] on the strings the script meets most: one to fifteen decimal
    digits denote their integer, which a double holds exactly.  The other
    forms of a numeric string are left to [other]. *)
Definition ToNumber (other : jsstring -> number) (s : jsstring) : number :=
  match s, digitsValue 0 s with
  | _ :: _, Some z => if Nat.leb (length s) 15 then ofZ z else other s
  | _, _ => other s
  end.

(** ** Moments

    A moment is its instant in milliseconds since the epoch, or invalid. *)

Definition Moment := option Z.

Definition truncate (q : Q) : Z := Z.quot (Qnum q) (Zpos (Qden q)).

(** [moment.unix(x).utc()]: the instant [x * 1000], cut to whole
    milliseconds; invalid out of the range of [Date] and for a missing or
    non-finite [x]. *)
Definition moment_unix (x : option number) : Moment :=
  match x with
  | Some (Fin q) =>
      let ms := (q * inject_Z 1000)%Q in
      if Qle_bool (inject_Z (-8640000000000000)) ms
         && Qle_bool ms (inject_Z 8640000000000000)
      then Some (truncate ms) else None
  | _ => None
  end.

(** [m.isBetween(from, to)]: both ends exclusive, to the millisecond;
    [false] as soon as one of the three is invalid. *)
Definition isBetween (m from to : Moment) : bool :=
  match m, from, to with
  | Some t, Some a, Some b => Z.ltb a t && Z.ltb t b
  | _, _, _ => false
  end.

End JS.

Import JS.

(** ** The data of the script *)

(** An entry of a reply listing: a comment ([kind] [t1]) or the overflow
    marker ([kind] [more]), whose [data] has [children] and none of the
    comment fields. *)
Record RedditChild := {
  kind : jsstring;
  child_author : option jsstring;
  child_body : option jsstring;
  child_created : option number;
  child_created_utc : option number;
  child_children : list jsstring
}.

Record Comment := {
  author : option jsstring;
  body : option jsstring;
  created : option number;
  created_utc : option number;
  youtubeLink : jsstring
}.

Record Snippet := { description : option jsstring }.

Record Statistics := {
  subscriberCount : option jsstring;
  viewCount : option jsstring
}.

Record Channel := {
  snippet : option Snippet;
  statistics : option Statistics
}.

(** The [data] of a [channels.list] response. *)
Record ChannelList := { items : option (list Channel) }.

Record Verification := {
  reddit_comment : Comment;
  youtube_snippet : Snippet;
  youtube_statistics : option Statistics
}.

Record ChannelsListParams := {
  part : list jsstring;
  forUsername : option jsstring;
  id : option (list jsstring);
  forHandle : option jsstring
}.

Record ApprovedLink := {
  userId : option jsstring;
  commentId : jsstring;
  channelLink : jsstring
}.

(** The document of [approved.json]. *)
Record ApprovedFile := {
  lastChecked : option jsstring;
  file_approvedLinks : list ApprovedLink
}.

(** The body of a [selectflair] request, with the path it is posted to. *)
Record FlairPost := {
  post_path : jsstring;
  name : option jsstring;
  text : jsstring;
  flair_template_id : option jsstring
}.

(** [process.env]. *)
Record Env := {
  SUBREDDIT : option jsstring;
  ARTICLE : option jsstring;
  PREVIOUS_DAYS : option jsstring;
  FIRST_TIER_FLAIR_ID : option jsstring;
  FIRST_TIER_EMOJI_ID : option jsstring;
  SECOND_TIER_FLAIR_ID : option jsstring;
  SECOND_TIER_EMOJI_ID : option jsstring;
  env_MINIMUM_SUB_COUNT : option jsstring;
  env_MINIMUM_VIEW_COUNT : option jsstring
}.

(** ** Computations

    An [async] function is a function of the world that returns or throws.
    The world holds the module-level [approvedLinks] array, the file
    [approved.json], the flair requests sent so far, and the count of the
    interactions with the outside (service calls and clock readings). *)

Inductive Error := TypeError | SyntaxError | Rejected.

Inductive Result (A : Type) :=
| Ok (a : A)
| Throw (e : Error).

Arguments Ok {A} a.
Arguments Throw {A} e.

Record World := {
  tick : nat;
  approvedLinks : list ApprovedLink;
  approved_json : option jsstring;
  posts : list FlairPost
}.

Definition M (A : Type) := World -> Result A * World.

Definition ret {A} (a : A) : M A := fun w => (Ok a, w).

Definition throw {A} (e : Error) : M A := fun w => (Throw e, w).

Definition bind {A B} (c : M A) (k : A -> M B) : M B :=
  fun w =>
    match c w with
    | (Ok a, w') => k a w'
    | (Throw e, w') => (Throw e, w')
    end.

Notation "x <- c ;; k" := (bind c (fun x => k))
  (at level 61, c at next level, right associativity).
Notation "c ;;; k" := (bind c (fun _ => k))
  (at level 61, right associativity).

Definition lift {A} (r : Result A) : M A := fun w => (r, w).

Definition advance (w : World) : World :=
  {| tick := S (tick w); approvedLinks := approvedLinks w;
     approved_json := approved_json w; posts := posts w |}.

(** The outside of the script: the module [./util], the built-ins that are
    not modelled above, and the services, which answer by the number of
    the interaction. *)
Class Host := {
  formatYoutubeLink : jsstring -> jsstring;
  formatNumber : number -> jsstring;
  ToNumber_other : jsstring -> number;
  Number_toString : number -> jsstring;
  parseInt : jsstring -> number;
  RegExp_i : jsstring -> Result (jsstring -> bool);
  JSON_parse : jsstring -> Result ApprovedFile;
  JSON_stringify : ApprovedFile -> jsstring;
  toISOString : Z -> jsstring;
  moment_utc_parse : jsstring -> Moment;
  moment_subtract_days : Moment -> option jsstring -> Moment;
  clock : nat -> Z;
  reddit_get_article : nat -> jsstring -> Result (list RedditChild);
  reddit_get_morechildren :
    nat -> jsstring -> jsstring -> Result (list RedditChild);
  reddit_post : nat -> FlairPost -> Result unit;
  youtube_channels_list : nat -> ChannelsListParams -> Result ChannelList
}.

Section Effects.

Context {host : Host}.

(** [moment.utc()] and [new Date()]. *)
Definition now : M Z := fun w => (Ok (clock (tick w)), advance w).

(** [reddit.get(articleSource, { sort: "new" })], down to
    [replies.data.children]. *)
Definition reddit_get (articleSource : jsstring) : M (list RedditChild) :=
  fun w => (reddit_get_article (tick w) articleSource, advance w).

(** [reddit.get("/api/morechildren", ...)], down to [json.data.things]. *)
Definition reddit_morechildren (link_id children : jsstring)
  : M (list RedditChild) :=
  fun w => (reddit_get_morechildren (tick w) link_id children, advance w).

(** [reddit.post(path, body)]; the request is sent whatever the answer. *)
Definition reddit_post_flair (p : FlairPost) : M unit :=
  fun w =>
    (reddit_post (tick w) p,
     {| tick := S (tick w); approvedLinks := approvedLinks w;
        approved_json := approved_json w; posts := posts w ++ [p] |}).

Definition youtube_list (p : ChannelsListParams) : M ChannelList :=
  fun w => (youtube_channels_list (tick w) p, advance w).

(** [approvedLinks.push(...ls)]. *)
Definition push (ls : list ApprovedLink) : M unit :=
  fun w =>
    (Ok tt,
     {| tick := tick w; approvedLinks := approvedLinks w ++ ls;
        approved_json := approved_json w; posts := posts w |}).

Definition readFile : M (option jsstring) :=
  fun w => (Ok (approved_json w), w).

(** [fs.writeFileSync(filePath, s)]. *)
Definition writeFile (s : jsstring) : M unit :=
  fun w =>
    (Ok tt,
     {| tick := tick w; approvedLinks := approvedLinks w;
        approved_json := Some s; posts := posts w |}).

Definition getApprovedLinks : M (list ApprovedLink) :=
  fun w => (Ok (approvedLinks w), w).

(** A [for] loop over an array. *)
Fixpoint forEach {A} (f : A -> M unit) (l : list A) : M unit :=
  match l with
  | [] => ret tt
  | x :: l' => f x ;;; forEach f l'
  end.

(** [a.filter(f)] for a callback that reads the clock at each entry. *)
Fixpoint filterM {A} (f : A -> M bool) (l : list A) : M (list A) :=
  match l with
  | [] => ret []
  | x :: l' =>
      keep <- f x ;;
      rest <- filterM f l' ;;
      ret (if keep then x :: rest else rest)
  end.

(** *** The filtering pipeline of [getRedditComments]

    Lines 137-160 of [main.ts] and 66-89 of the earlier revision are the
    same text; they differ by the pattern [youtubeLinkReg] in scope. *)

Definition notDeleted (child : RedditChild) : bool :=
  match child_author child with
  | Some a => negb (streq a (lit "[deleted]"))
  | None => true
  end.

(** The callback of [map]: the Link Extractor and the [Comment] record. *)
Definition toComment (youtubeLinkReg : regex) (child : RedditChild)
  : Comment :=
  let youtubeLink :=
    if truthy_opt (child_body child)
    then match regexMatch youtubeLinkReg (interp (child_body child)) with
         | Some m => if truthy m then m else []
         | None => []
         end
    else lit "https://www.youtube.com" in
  {| author := child_author child;
     body := child_body child;
     created := child_created child;
     created_utc := child_created_utc child;
     youtubeLink := youtubeLink |}.

(** The callback of the last [filter]. *)
Definition inRange (startDate : Moment) (item : Comment) : M bool :=
  let commentCreated := moment_unix (created item) in
  n <- now ;;
  ret (truthy (youtubeLink item)
       && isBetween commentCreated startDate (Some n)).

Definition comments (youtubeLinkReg : regex) (startDate : Moment)
    (allComments : list RedditChild) : M (list Comment) :=
  filterM (inRange startDate)
    (map (toComment youtubeLinkReg) (filter notDeleted allComments)).

(** [replies.data.children.find((reply) => reply.kind === "more")]. *)
Definition findMore (children : list RedditChild) : option RedditChild :=
  find (fun reply => streq (kind reply) (lit "more")) children.

End Effects.

(** ** The earlier revision of the script *)

Module Part000.
Section Script.

Context {host : Host} (env : Env).

(** [/https:\/\/www.youtube.com[^\s\[\])(]*/]: the dots are not escaped. *)
Definition youtubeLinkReg : regex :=
  {| reHead := [Lit (lit "https://www"); Dot; Lit (lit "youtube"); Dot;
                Lit (lit "com")];
     reTailStop := linkStop |}.

Definition getRedditComments (articleSource : jsstring)
    (startDate : Moment) : M (list Comment) :=
  children <- reddit_get articleSource ;;
  let more := findMore children in
  allComments <-
    match more with
    | Some more =>
        let commentIds := child_children more in
        things <- reddit_morechildren
                    (lit "t3_" ++ interp (ARTICLE env))
                    (join (lit ",") commentIds) ;;
        ret (children ++ things)
    | None => ret children
    end ;;
  comments youtubeLinkReg startDate allComments.

(** [process.env[...] || 100000] and [|| 1000000], as in [main.ts]. *)
Definition MINIMUM_SUB_COUNT : jsstring + number :=
  match env_MINIMUM_SUB_COUNT env with
  | Some s => if truthy s then inl s else inr (ofZ 100000)
  | None => inr (ofZ 100000)
  end.

Definition MINIMUM_VIEW_COUNT : jsstring + number :=
  match env_MINIMUM_VIEW_COUNT env with
  | Some s => if truthy s then inl s else inr (ofZ 1000000)
  | None => inr (ofZ 1000000)
  end.

(** Unary [+]. *)
Definition plus (v : jsstring + number) : number :=
  match v with
  | inl s => ToNumber ToNumber_other s
  | inr n => n
  end.

(** The request of the earlier [verifyChannel]: no lookup by handle, and
    in the [channel/] branch [id] is set whatever follows.  ([split] has a
    second piece whenever [includes] holds, so the [None] case is not
    met.) *)
Definition youtubeChannelListParams (slug : jsstring) : ChannelsListParams :=
  let part := [lit "snippet,statistics"] in
  if includes (lit "user/") slug then
    {| part := part;
       forUsername := nth_error (split (lit "user/") slug) 1;
       id := None; forHandle := None |}
  else if includes (lit "channel/") slug then
    {| part := part; forUsername := None;
       id := match nth_error (split (lit "channel/") slug) 1 with
             | Some channelId => Some [channelId]
             | None => None
             end;
       forHandle := None |}
  else
    {| part := part; forUsername := Some slug; id := None;
       forHandle := None |}.

Definition verifyChannel (comment : Comment) : M (option Verification) :=
  usernameReg <- lift (RegExp_i (lit "u/" ++ interp (author comment))) ;;
  if negb (truthy (youtubeLink comment)) then ret None
  else
    let formattedYoutubeLink := formatYoutubeLink (youtubeLink comment) in
    let slug :=
      nth_error
        (split (lit "https://www.youtube.com/") formattedYoutubeLink) 1 in
    if negb (truthy_opt slug) then ret None
    else
      channel <- youtube_list (youtubeChannelListParams (interp slug)) ;;
      match items channel with
      | Some its =>
          match its with
          | [] => throw TypeError
          | first :: _ =>
              match snippet first, statistics first with
              | Some snip, Some stats =>
                  match description snip with
                  | Some d =>
                      if truthy d then
                        if usernameReg d then
                          ret (Some
                                 {| reddit_comment := comment;
                                    youtube_snippet := snip;
                                    youtube_statistics := Some stats |})
                        else ret None
                      else ret None
                  | None => ret None
                  end
              | _, _ => ret None
              end
          end
      | None => ret None
      end.

Definition setFlair (verification : Verification) : M unit :=
  let author := author (reddit_comment verification) in
  let statistics := youtube_statistics verification in
  match statistics with
  | Some stats =>
      if truthy_opt (subscriberCount stats) && truthy_opt (viewCount stats)
      then
        let subCount :=
          ToNumber ToNumber_other (interp (subscriberCount stats)) in
        let viewCount :=
          ToNumber ToNumber_other (interp (viewCount stats)) in
        let flairTemplateId :=
          if ge subCount (plus MINIMUM_SUB_COUNT)
             || ge viewCount (plus MINIMUM_VIEW_COUNT)
          then FIRST_TIER_FLAIR_ID env
          else SECOND_TIER_FLAIR_ID env in
        let flairEmojiId :=
          if ge subCount (plus MINIMUM_SUB_COUNT)
             || ge viewCount (plus MINIMUM_VIEW_COUNT)
          then FIRST_TIER_EMOJI_ID env
          else SECOND_TIER_EMOJI_ID env in
        reddit_post_flair
          {| post_path := interp (SUBREDDIT env) ++ lit "/api/selectflair";
             name := author;
             text := lit ":" ++ interp flairEmojiId ++ lit ": Subs: "
                     ++ formatNumber subCount ++ lit " Views: "
                     ++ formatNumber viewCount;
             flair_template_id := flairTemplateId |}
      else ret tt
  | None => ret tt
  end.

Definition main : M unit :=
  n <- now ;;
  let startDate := moment_subtract_days (Some n) (PREVIOUS_DAYS env) in
  comments <- getRedditComments
                (interp (SUBREDDIT env) ++ lit "/comments/"
                 ++ interp (ARTICLE env))
                startDate ;;
  forEach
    (fun comment =>
       verification <- verifyChannel comment ;;
       match verification with
       | Some v => setFlair v
       | None => ret tt
       end)
    comments.

End Script.
End Part000.

(** ** [src/main.ts] *)

Module Main.
Section Script.

Context {host : Host} (env : Env).

(** [process.env[...] || 100000]: a non-empty string of the environment,
    else the number. *)
Definition orDefault (v : option jsstring) (d : Z) : jsstring + number :=
  match v with
  | Some s => if truthy s then inl s else inr (ofZ d)
  | None => inr (ofZ d)
  end.

Definition MINIMUM_SUB_COUNT : jsstring + number :=
  orDefault (env_MINIMUM_SUB_COUNT env) 100000.

Definition MINIMUM_VIEW_COUNT : jsstring + number :=
  orDefault (env_MINIMUM_VIEW_COUNT env) 1000000.

(** Unary [+]. *)
Definition plus (v : jsstring + number) : number :=
  match v with
  | inl s => ToNumber ToNumber_other s
  | inr n => n
  end.

Definition writeApprovedLinksToFile : M unit :=
  t <- now ;;
  ls <- getApprovedLinks ;;
  let data := {| lastChecked := Some (toISOString t);
                 file_approvedLinks := ls |} in
  writeFile (JSON_stringify data).

Definition readApprovedLinksFromFile : M ApprovedFile :=
  f <- readFile ;;
  match f with
  | None => ret {| lastChecked := None; file_approvedLinks := [] |}
  | Some data => lift (JSON_parse data)
  end.

(** [/https:\/\/(www\.)?youtube\.com[^\s\[\])(]*/]. *)
Definition youtubeLinkReg : regex :=
  {| reHead := [Lit (lit "https://"); Opt (lit "www.");
                Lit (lit "youtube.com")];
     reTailStop := linkStop |}.

Definition getRedditComments (articleSource : jsstring)
    (startDate : Moment) : M (list Comment) :=
  children <- reddit_get articleSource ;;
  let more := findMore children in
  match more with
  | None => ret []
  | Some more =>
      let commentIds := child_children more in
      things <- reddit_morechildren
                  (lit "t3_" ++ interp (ARTICLE env))
                  (join (lit ",") commentIds) ;;
      let allComments := children ++ things in
      comments youtubeLinkReg startDate allComments
  end.

(** The link as [verifyChannel] looks it up and records it. *)
Definition formattedYoutubeLink (comment : Comment) : jsstring :=
  hd []
    (split (lit "?")
       (formatYoutubeLink
          (replace (lit "https://m.youtube.com")
             (lit "https://www.youtube.com")
             (replace (lit "https://youtube.com")
                (lit "https://www.youtube.com")
                (youtubeLink comment))))).

(** The request built from the part of the link after the host. *)
Definition youtubeChannelListParams (slug : jsstring) : ChannelsListParams :=
  let part := [lit "snippet,statistics"] in
  if includes (lit "user/") slug then
    {| part := part;
       forUsername := nth_error (split (lit "user/") slug) 1;
       id := None; forHandle := None |}
  else if includes (lit "channel/") slug then
    let channelId := nth_error (split (lit "channel/") slug) 1 in
    {| part := part; forUsername := None;
       id := if truthy_opt channelId then Some [interp channelId] else None;
       forHandle := None |}
  else if startsWith (lit "@") slug then
    {| part := part; forUsername := None; id := None;
       forHandle := strip (lit "@") slug |}
  else
    {| part := part; forUsername := Some slug; id := None;
       forHandle := None |}.

Definition verifyChannel (comment : Comment) (skipDescriptionCheck : bool)
  : M (option Verification) :=
  usernameReg <- lift (RegExp_i (lit "u/" ++ interp (author comment))) ;;
  if negb (truthy (youtubeLink comment)) then ret None
  else
    let link := formattedYoutubeLink comment in
    let slug := nth_error (split (lit "https://www.youtube.com/") link) 1 in
    if negb (truthy_opt slug) then ret None
    else
      channel <- youtube_list (youtubeChannelListParams (interp slug)) ;;
      match items channel with
      | Some its =>
          match its with
          | [] => throw TypeError
          | first :: _ =>
              match snippet first, statistics first with
              | Some snip, Some stats =>
                  match description snip with
                  | Some d =>
                      if truthy d then
                        if usernameReg d || skipDescriptionCheck then
                          match created_utc comment with
                          | None => throw TypeError
                          | Some n =>
                              push [ {| userId := author comment;
                                        commentId := Number_toString n;
                                        channelLink := link |} ] ;;;
                              ret (Some
                                     {| reddit_comment := comment;
                                        youtube_snippet := snip;
                                        youtube_statistics := Some stats |})
                          end
                        else ret None
                      else ret None
                  | None => ret None
                  end
              | _, _ => ret None
              end
          end
      | None => ret None
      end.

Definition flairText (flairEmojiId : option jsstring)
    (subCount viewCount : number) : jsstring :=
  lit ":" ++ interp flairEmojiId ++ lit ": Subs: "
  ++ formatNumber subCount ++ lit " Views: " ++ formatNumber viewCount.

Definition setFlair (verification : Verification) : M unit :=
  let author := author (reddit_comment verification) in
  let statistics := youtube_statistics verification in
  match statistics with
  | Some stats =>
      if truthy_opt (subscriberCount stats) && truthy_opt (viewCount stats)
      then
        let subCount :=
          ToNumber ToNumber_other (interp (subscriberCount stats)) in
        let viewCount :=
          ToNumber ToNumber_other (interp (viewCount stats)) in
        let flairTemplateId :=
          if ge subCount (plus MINIMUM_SUB_COUNT)
             || ge viewCount (plus MINIMUM_VIEW_COUNT)
          then FIRST_TIER_FLAIR_ID env
          else SECOND_TIER_FLAIR_ID env in
        let flairEmojiId :=
          if ge subCount (plus MINIMUM_SUB_COUNT)
             || ge viewCount (plus MINIMUM_VIEW_COUNT)
          then FIRST_TIER_EMOJI_ID env
          else SECOND_TIER_EMOJI_ID env in
        reddit_post_flair
          {| post_path := interp (SUBREDDIT env) ++ lit "/api/selectflair";
             name := author;
             text := flairText flairEmojiId subCount viewCount;
             flair_template_id := flairTemplateId |}
      else ret tt
  | None => ret tt
  end.

Definition updateFlairForApprovedLinks (links : list ApprovedLink)
  : M unit :=
  forEach
    (fun link =>
       let comment :=
         {| author := userId link;
            created_utc := Some (parseInt (commentId link));
            youtubeLink := channelLink link;
            body := Some [];
            created := Some (ofZ 0) |} in
       verification <- verifyChannel comment true ;;
       match verification with
       | Some v => setFlair v
       | None => ret tt
       end)
    links.

(** [flair_template_id: null] is rendered as a missing identifier. *)
Definition removeFlair (username : jsstring) : M unit :=
  reddit_post_flair
    {| post_path := interp (SUBREDDIT env) ++ lit "/api/selectflair";
       name := Some username;
       text := [];
       flair_template_id := None |}.

Definition main : M unit :=
  st <- readApprovedLinksFromFile ;;
  let existingApprovedLinks := file_approvedLinks st in
  push existingApprovedLinks ;;;
  updateFlairForApprovedLinks existingApprovedLinks ;;;
  startDate <-
    (if truthy_opt (lastChecked st)
     then ret (moment_utc_parse (interp (lastChecked st)))
     else n <- now ;;
          ret (moment_subtract_days (Some n) (PREVIOUS_DAYS env))) ;;
  comments <- getRedditComments
                (interp (SUBREDDIT env) ++ lit "/comments/"
                 ++ interp (ARTICLE env))
                startDate ;;
  forEach
    (fun comment =>
       verification <- verifyChannel comment false ;;
       match verification with
       | Some v => setFlair v
       | None => ret tt
       end)
    comments ;;;
  (* //////// writeApprovedLinksToFile(); *)
  ret tt.

End Script.
End Main.

(** ** What the pipeline computes, without the world *)

Section Pure.

Context {host : Host}.

(** The answer of the last [filter]'s callback when the clock reads [n]. *)
Definition keptAt (startDate : Moment) (n : Z) (item : Comment) : bool :=
  truthy (youtubeLink item)
  && isBetween (moment_unix (created item)) startDate (Some n).

(** The entries kept when the first one is tested at interaction [t]. *)
Fixpoint filterAt (startDate : Moment) (t : nat) (l : list Comment)
  : list Comment :=
  match l with
  | [] => []
  | x :: l' =>
      if keptAt startDate (clock t) x
      then x :: filterAt startDate (S t) l'
      else filterAt startDate (S t) l'
  end.

Definition advanceBy (k : nat) (w : World) : World :=
  {| tick := k + tick w; approvedLinks := approvedLinks w;
     approved_json := approved_json w; posts := posts w |}.

(** The body of a raw reply is empty or absent. *)
Definition noBody (child : RedditChild) : Prop :=
  child_body child = None \/ child_body child = Some [].

(** A computation that leaves [approved.json] as it found it. *)
Definition keepsFile {A} (c : M A) : Prop :=
  forall w, approved_json (snd (c w)) = approved_json w.

End Pure.

(** The condition of lines 264 and 269 of [main.ts]. *)
Definition isTopTier {host : Host} (env : Env) (subCount viewCount : number)
  : bool :=
  ge subCount (Main.plus (Main.MINIMUM_SUB_COUNT env))
  || ge viewCount (Main.plus (Main.MINIMUM_VIEW_COUNT env)).

(** The request [setFlair] sends for a tier. *)
Definition tierPost {host : Host} (env : Env) (top : bool)
    (author : option jsstring) (subCount viewCount : number) : FlairPost :=
  {| post_path := interp (SUBREDDIT env) ++ lit "/api/selectflair";
     name := author;
     text := Main.flairText
               (if top then FIRST_TIER_EMOJI_ID env
                else SECOND_TIER_EMOJI_ID env) subCount viewCount;
     flair_template_id :=
       if top then FIRST_TIER_FLAIR_ID env else SECOND_TIER_FLAIR_ID env |}.

(** The host [h] with another channel service. *)
Definition answering (h : Host)
    (service : nat -> ChannelsListParams -> Result ChannelList) : Host :=
  {| formatYoutubeLink := @formatYoutubeLink h;
     formatNumber := @formatNumber h;
     ToNumber_other := @ToNumber_other h;
     Number_toString := @Number_toString h;
     parseInt := @parseInt h;
     RegExp_i := @RegExp_i h;
     JSON_parse := @JSON_parse h;
     JSON_stringify := @JSON_stringify h;
     toISOString := @toISOString h;
     moment_utc_parse := @moment_utc_parse h;
     moment_subtract_days := @moment_subtract_days h;
     clock := @clock h;
     reddit_get_article := @reddit_get_article h;
     reddit_get_morechildren := @reddit_get_morechildren h;
     reddit_post := @reddit_post h;
     youtube_channels_list := service |}.

(** The part of the link after the host, as [verifyChannel] reads it. *)
Definition slugOf {host : Host} (comment : Comment) : option jsstring :=
  nth_error
    (split (lit "https://www.youtube.com/")
       (Main.formattedYoutubeLink comment)) 1.

(** The record [verifyChannel] pushes for a verified comment. *)
Definition approvedLinkOf {host : Host} (comment : Comment) (n : number)
  : ApprovedLink :=
  {| userId := author comment;
     commentId := Number_toString n;
     channelLink := Main.formattedYoutubeLink comment |}.



(** A request [setFlair] can send. *)
Definition isTierRequest {host : Host} (env : Env) (p : FlairPost) : Prop :=
  exists top author subCount viewCount,
    p = tierPost env top author subCount viewCount.

(** [w'] is reached from [w] by pushing approved links and sending tier
    requests only. *)
Definition follows {host : Host} (env : Env) (w w' : World) : Prop :=
  (exists ls, approvedLinks w' = approvedLinks w ++ ls)
  /\ (exists ps,
        posts w' = posts w ++ ps /\ Forall (isTierRequest env) ps).

(** The same, with nothing pushed. *)
Definition followsUnrecorded {host : Host} (env : Env) (w w' : World)
  : Prop :=
  approvedLinks w' = approvedLinks w
  /\ approved_json w' = approved_json w
  /\ (exists ps,
        posts w' = posts w ++ ps /\ Forall (isTierRequest env) ps).

(** A computation whose final world is related by [R] to its initial one,
    whether it returns or throws. *)
Definition upholds {A} (R : World -> World -> Prop) (c : M A) : Prop :=
  forall w, R w (snd (c w)).

(** The world after [approvedLinks.push(...ls)] and after a sent request. *)
Definition pushed (ls : list ApprovedLink) (w : World) : World :=
  {| tick := tick w; approvedLinks := approvedLinks w ++ ls;
     approved_json := approved_json w; posts := posts w |}.

Definition posted (p : FlairPost) (w : World) : World :=
  {| tick := S (tick w); approvedLinks := approvedLinks w;
     approved_json := approved_json w; posts := posts w ++ [p] |}.

(** [l1] is [l2] with some entries left out, the others in their order. *)
Inductive subseq {A} : list A -> list A -> Prop :=
| subseq_nil : subseq [] []
| subseq_skip x l1 l2 : subseq l1 l2 -> subseq l1 (x :: l2)
| subseq_keep x l1 l2 : subseq l1 l2 -> subseq (x :: l1) (x :: l2).

(** The comment [c] with another link. *)
Definition withLink (c : Comment) (link : jsstring) : Comment :=
  {| author := author c; body := body c; created := created c;
     created_utc := created_utc c; youtubeLink := link |}.

(** The host [h] with another [JSON.parse]. *)
Definition parsing (h : Host) (parse : jsstring -> Result ApprovedFile)
  : Host :=
  {| formatYoutubeLink := @formatYoutubeLink h;
     formatNumber := @formatNumber h;
     ToNumber_other := @ToNumber_other h;
     Number_toString := @Number_toString h;
     parseInt := @parseInt h;
     RegExp_i := @RegExp_i h;
     JSON_parse := parse;
     JSON_stringify := @JSON_stringify h;
     toISOString := @toISOString h;
     moment_utc_parse := @moment_utc_parse h;
     moment_subtract_days := @moment_subtract_days h;
     clock := @clock h;
     reddit_get_article := @reddit_get_article h;
     reddit_get_morechildren := @reddit_get_morechildren h;
     reddit_post := @reddit_post h;
     youtube_channels_list := @youtube_channels_list h |}.

(** What [main] does once the stored state [st] is read and its links are
    pushed: lines 291-321. *)
Definition mainAfterSeed {host : Host} (env : Env) (st : ApprovedFile)
  : M unit :=
  Main.updateFlairForApprovedLinks env (file_approvedLinks st) ;;;
  startDate <-
    (if truthy_opt (lastChecked st)
     then ret (moment_utc_parse (interp (lastChecked st)))
     else n <- now ;;
          ret (moment_subtract_days (Some n) (PREVIOUS_DAYS env))) ;;
  comments <- Main.getRedditComments env
                (interp (SUBREDDIT env) ++ lit "/comments/"
                 ++ interp (ARTICLE env))
                startDate ;;
  forEach
    (fun comment =>
       verification <- Main.verifyChannel comment false ;;
       match verification with
       | Some v => Main.setFlair env v
       | None => ret tt
       end)
    comments ;;;
  ret tt.

(** ** A sample host and sample threads *)

Module Sample.

Definition decimal (z : Z) : jsstring :=
  lit (NilZero.string_of_int (Z.to_int z)).

Definition showNumber (n : number) : jsstring :=
  match n with
  | Fin q => decimal (truncate q)
  | NaN => lit "NaN"
  | PInf => lit "Infinity"
  | NInf => lit "-Infinity"
  end.

Definition lower (c : N) : N :=
  if N.leb 65 c && N.leb c 90 then (c + 32)%N else c.

(** A pattern without special characters, searched ignoring case. *)
Definition literal_i (src : jsstring) : Result (jsstring -> bool) :=
  Ok (fun s => includes (map lower src) (map lower s)).

Definition days (d : option jsstring) : Z :=
  match digitsValue 0 (interp d) with Some z => z | None => 0 end.

Definition host (thread extra : list RedditChild) (answer : ChannelList)
    (time : Z) : Host :=
  {| formatYoutubeLink := fun s => s;
     formatNumber := showNumber;
     ToNumber_other := fun _ => NaN;
     Number_toString := showNumber;
     parseInt := fun s => ToNumber (fun _ => NaN) s;
     RegExp_i := literal_i;
     JSON_parse := fun _ => Throw SyntaxError;
     JSON_stringify := fun _ => lit "{}";
     toISOString := decimal;
     moment_utc_parse := fun _ => None;
     moment_subtract_days :=
       fun m d => option_map (fun t => t - 86400000 * days d)%Z m;
     clock := fun _ => time;
     reddit_get_article := fun _ _ => Ok thread;
     reddit_get_morechildren := fun _ _ _ => Ok extra;
     reddit_post := fun _ _ => Ok tt;
     youtube_channels_list := fun _ _ => Ok answer |}.

Definition env : Env :=
  {| SUBREDDIT := Some (lit "/r/videos");
     ARTICLE := Some (lit "abc123");
     PREVIOUS_DAYS := Some (lit "7");
     FIRST_TIER_FLAIR_ID := Some (lit "gold-template");
     FIRST_TIER_EMOJI_ID := Some (lit "gold");
     SECOND_TIER_FLAIR_ID := Some (lit "silver-template");
     SECOND_TIER_EMOJI_ID := Some (lit "silver");
     env_MINIMUM_SUB_COUNT := None;
     env_MINIMUM_VIEW_COUNT := None |}.

Definition reply (who : string) (text : option jsstring)
    (at_local at_utc : Z) : RedditChild :=
  {| kind := lit "t1";
     child_author := Some (lit who);
     child_body := text;
     child_created := Some (ofZ at_local);
     child_created_utc := Some (ofZ at_utc);
     child_children := [] |}.

Definition moreMarker (ids : list jsstring) : RedditChild :=
  {| kind := lit "more";
     child_author := None;
     child_body := None;
     child_created := None;
     child_created_utc := None;
     child_children := ids |}.

Definition alice : RedditChild :=
  reply "alice"
    (Some (lit "check out https://www.youtube.com/channel/UC123 nice"))
    1700000000 1700000000.

Definition bob : RedditChild := reply "bob" None 1700000000 1700000000.

Definition carol : RedditChild :=
  reply "carol" (Some (lit "mine: https://youtube.com/@carol"))
    1700000500 1700000500.

Definition dave : RedditChild :=
  reply "dave" (Some (lit "see https://m.youtube.com/@dave ok"))
    1700000000 1700000000.

(** Posted an hour before the clock's time; [created] runs eight hours
    ahead of [created_utc]. *)
Definition erin : RedditChild :=
  reply "erin" (Some (lit "https://www.youtube.com/@erin"))
    1700028800 1700000000.

Definition frank : RedditChild :=
  reply "frank" (Some (lit "(https://www.youtube.com/user/frank)"))
    1700000900 1700000900.

Definition time : Z := 1700003600000.

Definition startDate : Moment := Some 1699900000000%Z.

Definition article : jsstring := lit "/r/videos/comments/abc123".

Definition channelOf (who : string) (subs views : string) : Channel :=
  {| snippet :=
       Some {| description :=
                 Some (lit "I'm u/" ++ lit who ++ lit ", welcome!") |};
     statistics :=
       Some {| subscriberCount := Some (lit subs);
               viewCount := Some (lit views) |} |}.

Definition found (c : Channel) : ChannelList := {| items := Some [c] |}.

Definition noItems : ChannelList := {| items := None |}.

Definition emptyItems : ChannelList := {| items := Some [] |}.

Definition w0 : World :=
  {| tick := 0; approvedLinks := []; approved_json := None; posts := [] |}.

Definition commentOf (c : RedditChild) : Comment :=
  toComment Main.youtubeLinkReg c.

Definition verificationOf (who : string) (subs views : string)
  : Verification :=
  {| reddit_comment := commentOf alice;
     youtube_snippet :=
       {| description :=
            Some (lit "I'm u/" ++ lit who ++ lit ", welcome!") |};
     youtube_statistics :=
       Some {| subscriberCount := Some (lit subs);
               viewCount := Some (lit views) |} |}.

End Sample.

(** The host [h] with another [subtract(..., "days")]. *)
Definition lookingBack (h : Host)
    (subtract : Moment -> option jsstring -> Moment) : Host :=
  {| formatYoutubeLink := @formatYoutubeLink h;
     formatNumber := @formatNumber h;
     ToNumber_other := @ToNumber_other h;
     Number_toString := @Number_toString h;
     parseInt := @parseInt h;
     RegExp_i := @RegExp_i h;
     JSON_parse := @JSON_parse h;
     JSON_stringify := @JSON_stringify h;
     toISOString := @toISOString h;
     moment_utc_parse := @moment_utc_parse h;
     moment_subtract_days := subtract;
     clock := @clock h;
     reddit_get_article := @reddit_get_article h;
     reddit_get_morechildren := @reddit_get_morechildren h;
     reddit_post := @reddit_post h;
     youtube_channels_list := @youtube_channels_list h |}.

(** ** More sample values *)

Module Cases.

Definition plain : Host := Sample.host [] [] Sample.noItems Sample.time.

Definition marker : RedditChild := Sample.moreMarker [lit "k1"; lit "k2"].

Definition threadHost : Host :=
  Sample.host [Sample.alice; Sample.frank; marker] [Sample.carol]
    Sample.noItems Sample.time.

Definition rootOnlyHost : Host :=
  Sample.host [Sample.alice] [] Sample.noItems Sample.time.

Definition aliceFound : ChannelList :=
  Sample.found (Sample.channelOf "alice" "50000" "200000").

Definition malloryFound : ChannelList :=
  Sample.found (Sample.channelOf "mallory" "50000" "200000").

(** A channel whose description is empty. *)
Definition blank : Channel :=
  {| snippet := Some {| description := Some [] |};
     statistics :=
       Some {| subscriberCount := Some (lit "50000");
               viewCount := Some (lit "200000") |} |}.

Definition storedAlice : ApprovedLink :=
  {| userId := Some (lit "alice");
     commentId := lit "1700000000";
     channelLink := lit "https://www.youtube.com/channel/UC123" |}.

Definition storedState : ApprovedFile :=
  {| lastChecked := Some (lit "2023-11-14T22:13:20.000Z");
     file_approvedLinks := [storedAlice] |}.

Definition withFile (data : jsstring) : World :=
  {| tick := 0; approvedLinks := []; approved_json := Some data;
     posts := [] |}.

Definition readingHost : Host :=
  parsing
    (Sample.host [Sample.alice; Sample.moreMarker []] [] aliceFound
       Sample.time)
    (fun _ => Ok storedState).

Definition noLookbackHost : Host := lookingBack rootOnlyHost (fun _ _ => None).

Definition withoutStatistics : Verification :=
  {| reddit_comment := Sample.commentOf Sample.alice;
     youtube_snippet := {| description := Some (lit "I'm u/alice") |};
     youtube_statistics := None |}.

End Cases.

(** * Properties *)

(** ** The monad and the pipeline *)

Section PipelineFacts.

Context {host : Host}.

Lemma advanceBy_0 (w : World) : advanceBy 0 w = w.
Proof. destruct w; reflexivity. Qed.

Lemma advanceBy_S (k : nat) (w : World) :
  advanceBy k (advance w) = advanceBy (S k) w.
Proof. unfold advanceBy, advance; simpl. f_equal. lia. Qed.

Lemma inRange_run (startDate : Moment) (item : Comment) (w : World) :
  inRange startDate item w
  = (Ok (keptAt startDate (clock (tick w)) item), advance w).
Proof. reflexivity. Qed.

(** The last [filter] reads the clock once per entry and keeps the
    entries in their order. *)
Lemma filterM_inRange (startDate : Moment) (l : list Comment) :
  forall w,
    filterM (inRange startDate) l w
    = (Ok (filterAt startDate (tick w) l), advanceBy (length l) w).
Proof.
  induction l as [|x l IH]; intro w; simpl.
  - now rewrite advanceBy_0.
  - unfold bind at 1. rewrite inRange_run.
    unfold bind at 1. rewrite IH. simpl tick.
    rewrite advanceBy_S. unfold ret.
    now destruct (keptAt startDate (clock (tick w)) x).
Qed.

Lemma comments_run (reg : regex) (startDate : Moment)
    (allComments : list RedditChild) (w : World) :
  comments reg startDate allComments w
  = (Ok (filterAt startDate (tick w)
           (map (toComment reg) (filter notDeleted allComments))),
     advanceBy (length (filter notDeleted allComments)) w).
Proof.
  unfold comments. rewrite filterM_inRange. now rewrite length_map.
Qed.

Lemma filterAt_app (startDate : Moment) (l1 l2 : list Comment) :
  forall t,
    filterAt startDate t (l1 ++ l2)
    = filterAt startDate t l1 ++ filterAt startDate (length l1 + t) l2.
Proof.
  induction l1 as [|x l1 IH]; intro t; simpl; [reflexivity|].
  rewrite IH. replace (length l1 + S t) with (S (length l1 + t)) by lia.
  now destruct (keptAt startDate (clock t) x).
Qed.

(** Every entry of the output is a candidate that passed both tests. *)
Lemma filterAt_In (startDate : Moment) (l : list Comment) (x : Comment) :
  forall t, In x (filterAt startDate t l) ->
            In x l /\ exists n, keptAt startDate n x = true.
Proof.
  induction l as [|y l IH]; intros t H; simpl in *; [contradiction|].
  destruct (keptAt startDate (clock t) y) eqn:K.
  - destruct H as [<-|H].
    + split; [now left | now exists (clock t)].
    + destruct (IH _ H) as [? ?]. split; [now right | assumption].
  - destruct (IH _ H) as [? ?]. split; [now right | assumption].
Qed.

End PipelineFacts.

(** ** The reply listing without an overflow marker (C1) *)

Section Overflow.

Context {host : Host} (env : Env).

(** The earlier revision goes on with the root replies alone. *)
Lemma Part000_without_more (article : jsstring) (startDate : Moment)
    (w : World) (children : list RedditChild) :
  reddit_get_article (tick w) article = Ok children ->
  findMore children = None ->
  Part000.getRedditComments env article startDate w
  = comments Part000.youtubeLinkReg startDate children (advance w).
Proof.
  intros Hget Hmore. unfold Part000.getRedditComments, bind, reddit_get.
  now rewrite Hget, Hmore.
Qed.

(** With a marker, both revisions filter the root replies followed by
    the overflow replies. *)
Lemma Main_with_more (article : jsstring) (startDate : Moment)
    (w : World) (children things : list RedditChild) (more : RedditChild) :
  reddit_get_article (tick w) article = Ok children ->
  findMore children = Some more ->
  reddit_get_morechildren (S (tick w))
    (lit "t3_" ++ interp (ARTICLE env))
    (join (lit ",") (child_children more)) = Ok things ->
  Main.getRedditComments env article startDate w
  = comments Main.youtubeLinkReg startDate (children ++ things)
      (advance (advance w)).
Proof.
  intros Hget Hmore Hextra.
  unfold Main.getRedditComments, bind, reddit_get.
  rewrite Hget, Hmore. unfold reddit_morechildren. simpl tick.
  now rewrite Hextra.
Qed.

(** Root entries first, overflow entries appended, each in its order. *)
Lemma Main_overflow_order (article : jsstring) (startDate : Moment)
    (w : World) (children things : list RedditChild) (more : RedditChild) :
  reddit_get_article (tick w) article = Ok children ->
  findMore children = Some more ->
  reddit_get_morechildren (S (tick w))
    (lit "t3_" ++ interp (ARTICLE env))
    (join (lit ",") (child_children more)) = Ok things ->
  let root := filter notDeleted children in
  fst (Main.getRedditComments env article startDate w)
  = Ok (filterAt startDate (2 + tick w)
          (map (toComment Main.youtubeLinkReg) root)
        ++ filterAt startDate (length root + (2 + tick w))
             (map (toComment Main.youtubeLinkReg)
                (filter notDeleted things))).
Proof.
  intros Hget Hmore Hextra root.
  rewrite (Main_with_more _ _ _ Hget Hmore Hextra), comments_run.
  simpl fst. rewrite filter_app, map_app, filterAt_app, length_map.
  reflexivity.
Qed.

(** C1, as [main.ts] has it: a listing without an overflow marker is
    answered by the empty list, whatever eligible root comments it holds;
    the root replies are not looked at. *)
Theorem Main_without_more_returns_nothing (article : jsstring)
    (startDate : Moment) (w : World) (children : list RedditChild) :
  reddit_get_article (tick w) article = Ok children ->
  findMore children = None ->
  Main.getRedditComments env article startDate w = (Ok [], advance w).
Proof.
  intros Hget Hmore. unfold Main.getRedditComments, bind, reddit_get.
  now rewrite Hget, Hmore.
Qed.

End Overflow.

(** A thread of one eligible root comment and no marker: [main.ts] returns
    nothing. *)
Lemma Main_without_more_sample :
  Main.getRedditComments
    (host := Sample.host [Sample.alice] [] Sample.noItems Sample.time)
    Sample.env Sample.article Sample.startDate Sample.w0
  = (Ok [], advance Sample.w0).
Proof.
  apply (Main_without_more_returns_nothing
           (host := Sample.host [Sample.alice] [] Sample.noItems Sample.time)
           Sample.env Sample.article Sample.startDate Sample.w0
           (children := [Sample.alice]));
    reflexivity.
Defined.

(** On the same thread the earlier revision returns the comment. *)
Lemma Part000_without_more_sample :
  fst (Part000.getRedditComments
         (host := Sample.host [Sample.alice] [] Sample.noItems Sample.time)
         Sample.env Sample.article Sample.startDate Sample.w0)
  = Ok [toComment Part000.youtubeLinkReg Sample.alice].
Proof. vm_compute. reflexivity. Qed.

(** Two root comments, a marker and one overflow comment. *)
Lemma Main_overflow_sample :
  fst (Main.getRedditComments
         (host := Sample.host
                    [Sample.alice; Sample.frank;
                     Sample.moreMarker [lit "k1"; lit "k2"]]
                    [Sample.carol] Sample.noItems Sample.time)
         Sample.env Sample.article Sample.startDate Sample.w0)
  = Ok [Sample.commentOf Sample.alice; Sample.commentOf Sample.frank;
        Sample.commentOf Sample.carol].
Proof. vm_compute. reflexivity. Qed.

(** ** Persistence (C2) *)

Create HintDb file discriminated.

Section KeepsFile.

Context {host : Host}.

Lemma keepsFile_ret {A} (a : A) : keepsFile (ret a).
Proof. intro w; reflexivity. Qed.

Lemma keepsFile_throw {A} (e : Error) : keepsFile (@throw A e).
Proof. intro w; reflexivity. Qed.

Lemma keepsFile_lift {A} (r : Result A) : keepsFile (lift r).
Proof. intro w; reflexivity. Qed.

Lemma keepsFile_bind {A B} (c : M A) (k : A -> M B) :
  keepsFile c -> (forall a, keepsFile (k a)) -> keepsFile (bind c k).
Proof.
  intros Hc Hk w. unfold bind. specialize (Hc w).
  destruct (c w) as [[a|e] w']; simpl in *.
  - now rewrite Hk.
  - assumption.
Qed.

Lemma keepsFile_now : keepsFile now.
Proof. intro w; reflexivity. Qed.

Lemma keepsFile_reddit_get (a : jsstring) : keepsFile (reddit_get a).
Proof. intro w; reflexivity. Qed.

Lemma keepsFile_reddit_morechildren (a b : jsstring) :
  keepsFile (reddit_morechildren a b).
Proof. intro w; reflexivity. Qed.

Lemma keepsFile_reddit_post_flair (p : FlairPost) :
  keepsFile (reddit_post_flair p).
Proof. intro w; reflexivity. Qed.

Lemma keepsFile_youtube_list (p : ChannelsListParams) :
  keepsFile (youtube_list p).
Proof. intro w; reflexivity. Qed.

Lemma keepsFile_push (ls : list ApprovedLink) : keepsFile (push ls).
Proof. intro w; reflexivity. Qed.

Lemma keepsFile_readFile : keepsFile readFile.
Proof. intro w; reflexivity. Qed.

Lemma keepsFile_forEach {A} (f : A -> M unit) (l : list A) :
  (forall x, keepsFile (f x)) -> keepsFile (forEach f l).
Proof.
  intro Hf. induction l as [|x l IH]; simpl.
  - apply keepsFile_ret.
  - apply keepsFile_bind; [apply Hf | intros _; exact IH].
Qed.

Lemma keepsFile_comments (reg : regex) (startDate : Moment)
    (l : list RedditChild) : keepsFile (comments reg startDate l).
Proof. intro w. now rewrite comments_run. Qed.

Hint Resolve keepsFile_ret keepsFile_throw keepsFile_lift keepsFile_now
  keepsFile_reddit_get keepsFile_reddit_morechildren
  keepsFile_reddit_post_flair keepsFile_youtube_list keepsFile_push
  keepsFile_readFile keepsFile_comments : file.

Ltac step := apply keepsFile_bind; [auto with file | intro].

Lemma keepsFile_getRedditComments (env : Env) (a : jsstring)
    (startDate : Moment) :
  keepsFile (Main.getRedditComments env a startDate).
Proof.
  unfold Main.getRedditComments. step.
  destruct (findMore _); [step|]; auto with file.
Qed.

Lemma keepsFile_verifyChannel (comment : Comment) (skip : bool) :
  keepsFile (Main.verifyChannel comment skip).
Proof.
  unfold Main.verifyChannel. step.
  destruct (negb (truthy (youtubeLink comment))); [auto with file|].
  destruct (negb (truthy_opt _)); [auto with file|]. step.
  destruct (items _) as [[|first rest]|]; auto with file.
  destruct (snippet first) as [snip|], (statistics first) as [stats|];
    auto with file.
  destruct (description snip) as [d|]; auto with file.
  destruct (truthy d); auto with file.
  destruct (_ || skip); auto with file.
  destruct (created_utc comment); auto with file.
Qed.

Lemma keepsFile_setFlair (env : Env) (v : Verification) :
  keepsFile (Main.setFlair env v).
Proof.
  unfold Main.setFlair.
  destruct (youtube_statistics v) as [stats|]; auto with file.
  destruct (_ && _); auto with file.
Qed.

Lemma keepsFile_readApprovedLinksFromFile :
  keepsFile Main.readApprovedLinksFromFile.
Proof.
  unfold Main.readApprovedLinksFromFile. step.
  destruct a; auto with file.
Qed.

Hint Resolve keepsFile_getRedditComments keepsFile_verifyChannel
  keepsFile_setFlair keepsFile_readApprovedLinksFromFile : file.

Lemma keepsFile_verify_then_flair (env : Env) (comment : Comment)
    (skip : bool) :
  keepsFile
    (verification <- Main.verifyChannel comment skip ;;
     match verification with
     | Some v => Main.setFlair env v
     | None => ret tt
     end).
Proof. step. destruct a; auto with file. Qed.

Lemma keepsFile_updateFlairForApprovedLinks (env : Env)
    (links : list ApprovedLink) :
  keepsFile (Main.updateFlairForApprovedLinks env links).
Proof.
  apply keepsFile_forEach. intro link.
  apply keepsFile_verify_then_flair.
Qed.

(** No run of [main] touches [approved.json]: the call that would write
    it is commented out. *)
Lemma main_keeps_file (env : Env) : keepsFile (Main.main env).
Proof.
  unfold Main.main. step. step.
  apply keepsFile_bind;
    [apply keepsFile_updateFlairForApprovedLinks | intro].
  apply keepsFile_bind.
  - destruct (truthy_opt _); [auto with file|]. step. auto with file.
  - intro startDate. step.
    apply keepsFile_bind; [|auto with file].
    apply keepsFile_forEach. intro c. apply keepsFile_verify_then_flair.
Qed.

(** What the disabled call would do: write the whole in-memory list with
    a fresh [lastChecked]. *)
Lemma writeApprovedLinksToFile_run (w : World) :
  Main.writeApprovedLinksToFile w
  = (Ok tt,
     {| tick := S (tick w);
        approvedLinks := approvedLinks w;
        approved_json :=
          Some (JSON_stringify
                  {| lastChecked := Some (toISOString (clock (tick w)));
                     file_approvedLinks := approvedLinks w |});
        posts := posts w |}).
Proof. reflexivity. Qed.

End KeepsFile.

(** C2 at a first run (no [approved.json] yet) over a thread with one
    verifiable comment: the run completes, the link is approved in memory
    and the badge is set, and there is still no [approved.json]. *)
Theorem main_completes_without_persisting :
  let h := Sample.host [Sample.alice; Sample.moreMarker []] []
             (Sample.found (Sample.channelOf "alice" "50000" "200000"))
             Sample.time in
  let r := Main.main (host := h) Sample.env Sample.w0 in
  fst r = Ok tt
  /\ approvedLinks (snd r)
     = [ {| userId := Some (lit "alice");
            commentId := lit "1700000000";
            channelLink := lit "https://www.youtube.com/channel/UC123" |} ]
  /\ length (posts (snd r)) = 1
  /\ approved_json (snd r) = None.
Proof. vm_compute. repeat split. Qed.


(** ** The channel lookup (C3, C9) *)

Section Verify.

Context {host : Host}.

Lemma verifyChannel_lookup (comment : Comment) (skip : bool) (w : World)
    (re : jsstring -> bool) (slug : jsstring) :
  RegExp_i (lit "u/" ++ interp (author comment)) = Ok re ->
  truthy (youtubeLink comment) = true ->
  slugOf comment = Some slug ->
  truthy slug = true ->
  Main.verifyChannel comment skip w
  = bind (youtube_list (Main.youtubeChannelListParams slug))
      (fun channel =>
         match items channel with
         | Some [] => throw TypeError
         | Some (first :: _) =>
             match snippet first, statistics first with
             | Some snip, Some stats =>
                 match description snip with
                 | Some d =>
                     if truthy d && (re d || skip) then
                       match created_utc comment with
                       | None => throw TypeError
                       | Some n =>
                           push [approvedLinkOf comment n] ;;;
                           ret (Some
                                  {| reddit_comment := comment;
                                     youtube_snippet := snip;
                                     youtube_statistics := Some stats |})
                       end
                     else ret None
                 | None => ret None
                 end
             | _, _ => ret None
             end
         | None => ret None
         end) w.
Proof.
  intros Hre Hlink Hslug Htruthy. unfold slugOf in Hslug.
  unfold Main.verifyChannel. unfold bind at 1, lift. rewrite Hre, Hlink.
  cbn [negb]. rewrite Hslug. cbn [truthy_opt interp]. rewrite Htruthy.
  cbn [negb]. unfold bind.
  destruct (youtube_list _ w) as [[channel|e] w']; [|reflexivity].
  destruct (items channel) as [[|first rest]|]; try reflexivity.
  destruct (snippet first) as [snip|], (statistics first) as [stats|];
    try reflexivity.
  destruct (description snip) as [d|]; [|reflexivity].
  destruct (truthy d); reflexivity.
Qed.

(** No [items] in the answer: the channel was not found, and the function
    returns nothing. *)
Lemma verifyChannel_items_absent (comment : Comment) (skip : bool)
    (w : World) (re : jsstring -> bool) (slug : jsstring) :
  RegExp_i (lit "u/" ++ interp (author comment)) = Ok re ->
  truthy (youtubeLink comment) = true ->
  slugOf comment = Some slug ->
  truthy slug = true ->
  youtube_channels_list (tick w) (Main.youtubeChannelListParams slug)
  = Ok {| items := None |} ->
  Main.verifyChannel comment skip w = (Ok None, advance w).
Proof.
  intros Hre Hlink Hslug Htruthy Hans.
  rewrite (verifyChannel_lookup _ _ _ Hre Hlink Hslug Htruthy).
  unfold bind, youtube_list. now rewrite Hans.
Qed.

(** An [items] that is present and empty passes the test [if
    (channel.items)]; taking [snippet] and [statistics] out of its first
    element, which is [undefined], throws. *)
Lemma verifyChannel_items_empty (comment : Comment) (skip : bool)
    (w : World) (re : jsstring -> bool) (slug : jsstring) :
  RegExp_i (lit "u/" ++ interp (author comment)) = Ok re ->
  truthy (youtubeLink comment) = true ->
  slugOf comment = Some slug ->
  truthy slug = true ->
  youtube_channels_list (tick w) (Main.youtubeChannelListParams slug)
  = Ok {| items := Some [] |} ->
  Main.verifyChannel comment skip w = (Throw TypeError, advance w).
Proof.
  intros Hre Hlink Hslug Htruthy Hans.
  rewrite (verifyChannel_lookup _ _ _ Hre Hlink Hslug Htruthy).
  unfold bind, youtube_list. now rewrite Hans.
Qed.

End Verify.

(** Of several items only the first is read. *)
Lemma verifyChannel_first_item_only (h : Host) (comment : Comment)
    (skip : bool) (w : World) (first : Channel) (rest : list Channel) :
  Main.verifyChannel
    (host := answering h (fun _ _ => Ok {| items := Some (first :: rest) |}))
    comment skip w
  = Main.verifyChannel
      (host := answering h (fun _ _ => Ok {| items := Some [first] |}))
      comment skip w.
Proof.
  unfold Main.verifyChannel, bind, lift; cbn.
  destruct (RegExp_i _) as [re|e]; [|reflexivity].
  destruct (negb (truthy (youtubeLink comment))); [reflexivity|].
  destruct (negb (truthy_opt _)); reflexivity.
Qed.

(** C3 at a well-formed answer without channels, [{ items: [] }], for a
    comment whose link resolves: [verifyChannel] throws a [TypeError]
    where the specification has it return nothing. *)
Theorem verifyChannel_throws_on_empty_items :
  Main.verifyChannel
    (host := Sample.host [] [] Sample.emptyItems Sample.time)
    (Sample.commentOf Sample.alice) false Sample.w0
  = (Throw TypeError, advance Sample.w0).
Proof.
  apply (verifyChannel_items_empty
           (host := Sample.host [] [] Sample.emptyItems Sample.time)
           (Sample.commentOf Sample.alice) false Sample.w0
           (re := fun s => includes (map Sample.lower (lit "u/alice"))
                             (map Sample.lower s))
           (slug := lit "channel/UC123"));
    reflexivity.
Qed.

(** With no [items] at all the same call returns nothing. *)
Lemma verifyChannel_not_found_sample :
  Main.verifyChannel
    (host := Sample.host [] [] Sample.noItems Sample.time)
    (Sample.commentOf Sample.alice) false Sample.w0
  = (Ok None, advance Sample.w0).
Proof. vm_compute. reflexivity. Qed.

Section Approval.

Context {host : Host}.

Lemma app_one_neq {A} (l : list A) (x : A) : l ++ [x] <> l.
Proof.
  intro H. apply (f_equal (@length A)) in H.
  rewrite length_app in H. simpl in H. lia.
Qed.

(** The paths of [verifyChannel] that return nothing. *)
Lemma verifyChannel_empty_link (comment : Comment) (skip : bool) (w : World)
    (re : jsstring -> bool) :
  RegExp_i (lit "u/" ++ interp (author comment)) = Ok re ->
  youtubeLink comment = [] ->
  Main.verifyChannel comment skip w = (Ok None, w).
Proof.
  intros Hre Hlink. unfold Main.verifyChannel, bind, lift.
  now rewrite Hre, Hlink.
Qed.

Lemma verifyChannel_unresolvable (comment : Comment) (skip : bool)
    (w : World) (re : jsstring -> bool) :
  RegExp_i (lit "u/" ++ interp (author comment)) = Ok re ->
  truthy_opt (slugOf comment) = false ->
  Main.verifyChannel comment skip w = (Ok None, w).
Proof.
  intros Hre Hslug. unfold Main.verifyChannel, bind, lift. rewrite Hre.
  destruct (negb (truthy (youtubeLink comment))); [reflexivity|].
  unfold slugOf in Hslug. now rewrite Hslug.
Qed.

(** C9: [verifyChannel] returns a [Verification] exactly when it has pushed
    one record onto [approvedLinks], made of the comment's author, its
    [created_utc] as a string and the formatted link; whenever it returns
    nothing, and also when it throws, [approvedLinks] is as before. *)
Theorem verifyChannel_pushes_iff_verified (comment : Comment) (skip : bool)
    (w : World) :
  let r := Main.verifyChannel comment skip w in
  match fst r with
  | Ok (Some v) =>
      reddit_comment v = comment
      /\ exists n,
           created_utc comment = Some n
           /\ approvedLinks (snd r)
              = approvedLinks w ++ [approvedLinkOf comment n]
  | Ok None | Throw _ => approvedLinks (snd r) = approvedLinks w
  end
  /\ ((exists v, fst r = Ok (Some v))
      <-> (exists l, approvedLinks (snd r) = approvedLinks w ++ [l])).
Proof.
  intro r.
  assert (Hshape :
            match fst r with
            | Ok (Some v) =>
                reddit_comment v = comment
                /\ exists n,
                     created_utc comment = Some n
                     /\ approvedLinks (snd r)
                        = approvedLinks w ++ [approvedLinkOf comment n]
            | Ok None | Throw _ => approvedLinks (snd r) = approvedLinks w
            end).
  { subst r. unfold Main.verifyChannel, bind, lift.
    destruct (RegExp_i _) as [re|e]; [|reflexivity].
    destruct (negb (truthy (youtubeLink comment))); [reflexivity|].
    destruct (negb (truthy_opt _)); [reflexivity|].
    unfold youtube_list.
    destruct (youtube_channels_list _ _) as [channel|e]; [|reflexivity].
    destruct (items channel) as [[|first rest]|]; try reflexivity.
    destruct (snippet first) as [snip|], (statistics first) as [stats|];
      try reflexivity.
    destruct (description snip) as [d|]; [|reflexivity].
    destruct (truthy d); [|reflexivity].
    destruct (re d || skip); [|reflexivity].
    destruct (created_utc comment) as [n|] eqn:Hn; [|reflexivity].
    simpl. split; [reflexivity|]. exists n. split; reflexivity. }
  split; [exact Hshape|].
  split.
  - intros [v Hv]. rewrite Hv in Hshape.
    destruct Hshape as [_ [n [_ Happ]]]. now exists (approvedLinkOf comment n).
  - intros [l Hl]. destruct (fst r) as [[v|]|e].
    + now exists v.
    + rewrite Hl in Hshape. now apply app_one_neq in Hshape.
    + rewrite Hl in Hshape. now apply app_one_neq in Hshape.
Qed.

End Approval.

(** Scenario A of the specification: the description names the author. *)
Lemma verifyChannel_verified_sample :
  let h := Sample.host [] []
             (Sample.found (Sample.channelOf "alice" "50000" "200000"))
             Sample.time in
  let r := Main.verifyChannel (host := h) (Sample.commentOf Sample.alice)
             false Sample.w0 in
  fst r = Ok (Some (Sample.verificationOf "alice" "50000" "200000"))
  /\ approvedLinks (snd r)
     = [ {| userId := Some (lit "alice");
            commentId := lit "1700000000";
            channelLink := lit "https://www.youtube.com/channel/UC123" |} ].
Proof. vm_compute. split; reflexivity. Qed.

(** Scenario C: the description names somebody else. *)
Lemma verifyChannel_unverified_sample :
  let h := Sample.host [] []
             (Sample.found (Sample.channelOf "mallory" "50000" "200000"))
             Sample.time in
  Main.verifyChannel (host := h) (Sample.commentOf Sample.alice)
    false Sample.w0
  = (Ok None, advance Sample.w0).
Proof. vm_compute. reflexivity. Qed.

(** ** The Link Extractor and the Comment Filter (C4, C5, C6) *)

Section Filter.

Context {host : Host}.

Lemma toComment_noBody (reg : regex) (child : RedditChild) :
  noBody child ->
  youtubeLink (toComment reg child) = lit "https://www.youtube.com".
Proof. intros [H|H]; unfold toComment; rewrite H; reflexivity. Qed.

(** C4, amended: a reply whose body is empty or absent gets the bare
    homepage link, which is not empty, so the Comment Filter does not drop
    it for its link.  Wherever the reply stands in the candidate list, it
    is kept exactly when its author is not the deleted-user sentinel and
    its [created] time lies strictly inside the window, read at the moment
    the reply is tested. *)
Theorem bodiless_reply_kept_by_window (reg : regex) (startDate : Moment)
    (pre post : list RedditChild) (child : RedditChild) (w : World) :
  noBody child ->
  youtubeLink (toComment reg child) = lit "https://www.youtube.com"
  /\ let k := length (filter notDeleted pre) in
     let kept :=
       notDeleted child
       && isBetween (moment_unix (child_created child)) startDate
            (Some (clock (k + tick w))) in
     fst (comments reg startDate (pre ++ child :: post) w)
     = Ok (filterAt startDate (tick w)
             (map (toComment reg) (filter notDeleted pre))
           ++ (if kept then [toComment reg child] else [])
           ++ filterAt startDate
                ((if notDeleted child then 1 else 0) + (k + tick w))
                (map (toComment reg) (filter notDeleted post))).
Proof.
  intro Hbody. split; [now apply toComment_noBody|].
  intros k kept. rewrite comments_run. simpl fst.
  rewrite filter_app, map_app, filterAt_app, length_map. fold k.
  f_equal. f_equal. subst kept. simpl filter.
  destruct (notDeleted child); [|reflexivity].
  simpl map. simpl filterAt. unfold keptAt.
  rewrite (toComment_noBody reg Hbody). simpl.
  now destruct (isBetween _ _ _).
Qed.

(** The last [filter] reads [created]; [created_utc] has no part in it. *)
Lemma keptAt_reads_created (startDate : Moment) (n : Z) (a b : Comment) :
  youtubeLink a = youtubeLink b -> created a = created b ->
  keptAt startDate n a = keptAt startDate n b.
Proof. intros Hl Hc. unfold keptAt. now rewrite Hl, Hc. Qed.

Lemma takeWhileNot_stops (stop : N -> bool) (path rest : jsstring) :
  Forall (fun c => stop c = false) path ->
  (rest = [] \/ exists c r, rest = c :: r /\ stop c = true) ->
  takeWhileNot stop (path ++ rest) = path.
Proof.
  intros Hpath Hrest. induction Hpath as [|c path Hc _ IH]; simpl.
  - destruct Hrest as [->|[c [r [-> Hc]]]]; simpl; [reflexivity|].
    now rewrite Hc.
  - now rewrite Hc, IH.
Qed.

(** At the start of a body, a link on the [www.] host is returned up to the
    first white space, bracket or parenthesis. *)
Lemma extract_www_link (path rest : jsstring) :
  Forall (fun c => linkStop c = false) path ->
  (rest = [] \/ exists c r, rest = c :: r /\ linkStop c = true) ->
  regexMatch Main.youtubeLinkReg
    (lit "https://www.youtube.com" ++ path ++ rest)
  = Some (lit "https://www.youtube.com" ++ path).
Proof.
  intros Hpath Hrest. cbn.
  now rewrite (takeWhileNot_stops _ Hpath Hrest).
Qed.

(** The same for a link on the bare host. *)
Lemma extract_bare_link (path rest : jsstring) :
  Forall (fun c => linkStop c = false) path ->
  (rest = [] \/ exists c r, rest = c :: r /\ linkStop c = true) ->
  regexMatch Main.youtubeLinkReg
    (lit "https://youtube.com" ++ path ++ rest)
  = Some (lit "https://youtube.com" ++ path).
Proof.
  intros Hpath Hrest. cbn.
  now rewrite (takeWhileNot_stops _ Hpath Hrest).
Qed.

End Filter.

(** C4 as stated fails: this thread's reply without a body is in the
    output of the Comment Filter. *)
Lemma bodiless_reply_not_excluded :
  let thread := [Sample.bob; Sample.moreMarker []] in
  let h := Sample.host thread [] Sample.noItems Sample.time in
  ~ (forall child out,
       In child thread -> noBody child ->
       fst (Main.getRedditComments (host := h) Sample.env Sample.article
              Sample.startDate Sample.w0) = Ok out ->
       ~ In (toComment Main.youtubeLinkReg child) out).
Proof.
  intros thread h H.
  apply (H Sample.bob [Sample.commentOf Sample.bob]).
  - now left.
  - now left.
  - vm_compute. reflexivity.
  - now left.
Qed.

Lemma bodiless_reply_kept_sample :
  let h := Sample.host [] [] Sample.noItems Sample.time in
  noBody Sample.bob
  /\ youtubeLink (toComment Main.youtubeLinkReg Sample.bob)
     = lit "https://www.youtube.com"
  /\ fst (comments (host := h) Main.youtubeLinkReg Sample.startDate
            ([] ++ Sample.bob :: [Sample.moreMarker []]) Sample.w0)
     = Ok [toComment Main.youtubeLinkReg Sample.bob].
Proof.
  intro h.
  assert (Hb : noBody Sample.bob) by (left; reflexivity).
  split; [exact Hb|].
  exact (bodiless_reply_kept_by_window (host := h) Main.youtubeLinkReg
           Sample.startDate [] [Sample.moreMarker []] Sample.w0 Hb).
Defined.

(** [verifyChannel] then turns the bare homepage link away: it has no path
    after the host. *)
Lemma bodiless_reply_unresolvable_sample :
  Main.verifyChannel
    (host := Sample.host [] [] Sample.noItems Sample.time)
    (Sample.commentOf Sample.bob) false Sample.w0
  = (Ok None, Sample.w0).
Proof. vm_compute. reflexivity. Qed.

(** C5 at a body whose only link is on the mobile host: the pattern of
    [main.ts] accepts the [www.] and the bare host only, nothing is
    extracted and the comment is dropped. *)
Theorem mobile_link_is_not_extracted :
  regexMatch Main.youtubeLinkReg (lit "see https://m.youtube.com/@dave ok")
  = None
  /\ youtubeLink (toComment Main.youtubeLinkReg Sample.dave) = []
  /\ fst (Main.getRedditComments
            (host := Sample.host [Sample.dave; Sample.moreMarker []] []
                       Sample.noItems Sample.time)
            Sample.env Sample.article Sample.startDate Sample.w0)
     = Ok [].
Proof. vm_compute. repeat split. Qed.

(** [verifyChannel] is ready for such a link: it rewrites the mobile host
    to the [www.] host before it looks the channel up. *)
Lemma mobile_link_normalized_sample :
  Main.formattedYoutubeLink
    (host := Sample.host [] [] Sample.noItems Sample.time)
    {| author := Some (lit "dave"); body := None; created := None;
       created_utc := None;
       youtubeLink := lit "https://m.youtube.com/@dave" |}
  = lit "https://www.youtube.com/@dave".
Proof. vm_compute. reflexivity. Qed.

Lemma extract_samples :
  youtubeLink (Sample.commentOf Sample.alice)
  = lit "https://www.youtube.com/channel/UC123"
  /\ youtubeLink (Sample.commentOf Sample.carol)
     = lit "https://youtube.com/@carol"
  /\ youtubeLink (Sample.commentOf Sample.frank)
     = lit "https://www.youtube.com/user/frank".
Proof. vm_compute. repeat split. Qed.

(** C6 at a comment posted an hour before the call whose [created] runs
    eight hours ahead of its [created_utc]: the UTC creation time lies
    strictly inside the window, the author is not deleted and a link was
    extracted, yet the comment is dropped, as the filter tests [created]. *)
Theorem created_utc_inside_window_dropped :
  let now := Some Sample.time in
  isBetween (moment_unix (child_created_utc Sample.erin))
    Sample.startDate now = true
  /\ isBetween (moment_unix (child_created Sample.erin))
       Sample.startDate now = false
  /\ notDeleted Sample.erin = true
  /\ truthy (youtubeLink (Sample.commentOf Sample.erin)) = true
  /\ fst (Main.getRedditComments
            (host := Sample.host [Sample.erin; Sample.moreMarker []] []
                       Sample.noItems Sample.time)
            Sample.env Sample.article Sample.startDate Sample.w0)
     = Ok [].
Proof. vm_compute. repeat split. Qed.

(** ** Tiers and badges (C7, C8, C10) *)

Section Tiers.

Context {host : Host} (env : Env).

Lemma ge_trans (a b c : number) :
  ge a b = true -> ge b c = true -> ge a c = true.
Proof.
  destruct a as [| |x|], b as [| |y|], c as [| |z|]; simpl;
    try reflexivity; try discriminate.
  intros Hyx Hzy. apply Qle_bool_iff. apply Qle_bool_iff in Hyx, Hzy.
  now apply Qle_trans with y.
Qed.

Lemma ge_Fin (x y : Q) : ge (Fin x) (Fin y) = true <-> (y <= x)%Q.
Proof. simpl. apply Qle_bool_iff. Qed.

(** Without [MINIMUM_SUB_COUNT] and [MINIMUM_VIEW_COUNT] in the
    environment the thresholds are 100000 and 1000000. *)
Lemma thresholds_default :
  env_MINIMUM_SUB_COUNT env = None ->
  env_MINIMUM_VIEW_COUNT env = None ->
  Main.plus (Main.MINIMUM_SUB_COUNT env) = ofZ 100000
  /\ Main.plus (Main.MINIMUM_VIEW_COUNT env) = ofZ 1000000.
Proof.
  intros Hs Hv. unfold Main.MINIMUM_SUB_COUNT, Main.MINIMUM_VIEW_COUNT.
  rewrite Hs, Hv. split; reflexivity.
Qed.

(** With both counts present and non-empty, [setFlair] sends one request,
    the one of the tier the condition selects. *)
Lemma setFlair_run (v : Verification) (stats : Statistics)
    (sc vc : jsstring) (w : World) :
  youtube_statistics v = Some stats ->
  subscriberCount stats = Some sc ->
  viewCount stats = Some vc ->
  truthy sc = true ->
  truthy vc = true ->
  let subCount := ToNumber ToNumber_other sc in
  let viewCount := ToNumber ToNumber_other vc in
  Main.setFlair env v w
  = reddit_post_flair
      (tierPost env (isTopTier env subCount viewCount)
         (author (reddit_comment v)) subCount viewCount) w.
Proof.
  intros Hstats Hsc Hvc Hs Hv subCount viewCount.
  unfold Main.setFlair. rewrite Hstats, Hsc, Hvc. cbn [truthy_opt].
  rewrite Hs, Hv. cbn [andb interp].
  fold subCount viewCount. unfold tierPost, isTopTier.
  now destruct (ge subCount _ || ge viewCount _).
Qed.

(** X15: With a count missing or empty, or without statistics, nothing is
    sent. *)
Lemma setFlair_skip (v : Verification) (w : World) :
  match youtube_statistics v with
  | Some stats =>
      truthy_opt (subscriberCount stats) && truthy_opt (viewCount stats)
      = false
  | None => True
  end ->
  Main.setFlair env v w = (Ok tt, w).
Proof.
  unfold Main.setFlair. destruct (youtube_statistics v) as [stats|].
  - now intros ->.
  - reflexivity.
Qed.

(** C7: for a profile whose [subscriberCount] and [viewCount] denote
    numbers, [setFlair] sends the top-tier template and emoji exactly when
    the subscriber count reaches [MINIMUM_SUB_COUNT] or the view count
    reaches [MINIMUM_VIEW_COUNT], and the second-tier ones otherwise; the
    thresholds are 100000 and 1000000 when the environment sets none. *)
Theorem setFlair_selects_tier (v : Verification) (stats : Statistics)
    (sc vc : jsstring) (s q : Q) (w : World) :
  youtube_statistics v = Some stats ->
  subscriberCount stats = Some sc ->
  viewCount stats = Some vc ->
  truthy sc = true ->
  truthy vc = true ->
  ToNumber ToNumber_other sc = Fin s ->
  ToNumber ToNumber_other vc = Fin q ->
  let top := isTopTier env (Fin s) (Fin q) in
  posts (snd (Main.setFlair env v w))
  = posts w ++ [tierPost env top (author (reddit_comment v)) (Fin s) (Fin q)]
  /\ (top = true
      <-> ge (Fin s) (Main.plus (Main.MINIMUM_SUB_COUNT env)) = true
          \/ ge (Fin q) (Main.plus (Main.MINIMUM_VIEW_COUNT env)) = true)
  /\ (env_MINIMUM_SUB_COUNT env = None ->
      env_MINIMUM_VIEW_COUNT env = None ->
      (top = true <-> (inject_Z 100000 <= s \/ inject_Z 1000000 <= q)%Q)).
Proof.
  intros Hstats Hsc Hvc Hs Hv Hns Hnq top.
  assert (Htop : top = true
                 <-> ge (Fin s) (Main.plus (Main.MINIMUM_SUB_COUNT env)) = true
                     \/ ge (Fin q) (Main.plus (Main.MINIMUM_VIEW_COUNT env))
                        = true).
  { subst top. unfold isTopTier. apply orb_true_iff. }
  split; [|split].
  - rewrite (setFlair_run v w Hstats Hsc Hvc Hs Hv). rewrite Hns, Hnq.
    reflexivity.
  - exact Htop.
  - intros Es Ev. destruct (thresholds_default Es Ev) as [Ts Tv].
    rewrite Htop, Ts, Tv. unfold ofZ. now rewrite !ge_Fin.
Qed.

(** C8: a pair of counts of the top tier stays in the top tier when the
    subscriber count grows with the view count fixed, and when the view
    count grows with the subscriber count fixed. *)
Theorem isTopTier_monotone (s v s' v' : number) :
  isTopTier env s v = true ->
  (ge s' s = true -> isTopTier env s' v = true)
  /\ (ge v' v = true -> isTopTier env s v' = true).
Proof.
  unfold isTopTier. intro H. apply orb_true_iff in H.
  split; intro Hge; apply orb_true_iff; destruct H as [H|H].
  - left. now apply ge_trans with s.
  - now right.
  - now left.
  - right. now apply ge_trans with v.
Qed.

(** C10: whatever [setFlair] sends, its template and the emoji in its text
    come from the same tier: the request is the top-tier one or the
    second-tier one, never a mix. *)
Theorem setFlair_badge_is_tier_consistent (v : Verification) (w : World) :
  posts (snd (Main.setFlair env v w)) = posts w
  \/ exists (top : bool) (subCount viewCount : number),
       posts (snd (Main.setFlair env v w))
       = posts w
         ++ [ {| post_path := interp (SUBREDDIT env) ++ lit "/api/selectflair";
                 name := author (reddit_comment v);
                 text :=
                   Main.flairText
                     (if top then FIRST_TIER_EMOJI_ID env
                      else SECOND_TIER_EMOJI_ID env) subCount viewCount;
                 flair_template_id :=
                   if top then FIRST_TIER_FLAIR_ID env
                   else SECOND_TIER_FLAIR_ID env |} ].
Proof.
  unfold Main.setFlair.
  destruct (youtube_statistics v) as [stats|]; [|now left].
  destruct (truthy_opt (subscriberCount stats)
            && truthy_opt (viewCount stats)); [|now left].
  right.
  set (subCount := ToNumber ToNumber_other (interp (subscriberCount stats))).
  set (viewCount' := ToNumber ToNumber_other (interp (viewCount stats))).
  exists (ge subCount (Main.plus (Main.MINIMUM_SUB_COUNT env))
          || ge viewCount' (Main.plus (Main.MINIMUM_VIEW_COUNT env))),
    subCount, viewCount'.
  reflexivity.
Qed.

End Tiers.

(** Scenarios A and B of the specification, with the default thresholds:
    50000 subscribers and 200000 views make the second tier, 150000
    subscribers the top tier. *)
Lemma setFlair_selects_tier_samples :
  let h := Sample.host [] [] Sample.noItems Sample.time in
  posts (snd (Main.setFlair (host := h) Sample.env
                (Sample.verificationOf "alice" "50000" "200000") Sample.w0))
  = [ {| post_path := lit "/r/videos/api/selectflair";
         name := Some (lit "alice");
         text := lit ":silver: Subs: 50000 Views: 200000";
         flair_template_id := Some (lit "silver-template") |} ]
  /\ posts (snd (Main.setFlair (host := h) Sample.env
                   (Sample.verificationOf "alice" "150000" "200000")
                   Sample.w0))
     = [ {| post_path := lit "/r/videos/api/selectflair";
            name := Some (lit "alice");
            text := lit ":gold: Subs: 150000 Views: 200000";
            flair_template_id := Some (lit "gold-template") |} ].
Proof.
  intro h. split.
  - exact (proj1 (setFlair_selects_tier (host := h) Sample.env
                    (Sample.verificationOf "alice" "50000" "200000")
                    (s := inject_Z 50000) (q := inject_Z 200000) Sample.w0
                    eq_refl eq_refl eq_refl eq_refl eq_refl eq_refl eq_refl)).
  - exact (proj1 (setFlair_selects_tier (host := h) Sample.env
                    (Sample.verificationOf "alice" "150000" "200000")
                    (s := inject_Z 150000) (q := inject_Z 200000) Sample.w0
                    eq_refl eq_refl eq_refl eq_refl eq_refl eq_refl eq_refl)).
Defined.

Lemma isTopTier_monotone_sample :
  let h := Sample.host [] [] Sample.noItems Sample.time in
  isTopTier (host := h) Sample.env (ofZ 150000) (ofZ 200000) = true
  /\ isTopTier (host := h) Sample.env (ofZ 900000) (ofZ 200000) = true
  /\ isTopTier (host := h) Sample.env (ofZ 150000) (ofZ 200001) = true.
Proof.
  intro h.
  assert (H : isTopTier (host := h) Sample.env (ofZ 150000) (ofZ 200000)
              = true) by reflexivity.
  split; [exact H|].
  destruct (isTopTier_monotone (host := h) Sample.env
              (ofZ 150000) (ofZ 200000) (ofZ 900000) (ofZ 200001) H)
    as [Hs Hv].
  split; [apply Hs | apply Hv]; reflexivity.
Defined.

(** ** More on the paths of [verifyChannel] and on the earlier revision *)

Section Paths.

Context {host : Host}.

(** X12: A first item without description, with an empty one, or without
    statistics: nothing is returned. *)
Lemma verifyChannel_incomplete_profile (comment : Comment) (skip : bool)
    (w : World) (re : jsstring -> bool) (slug : jsstring)
    (first : Channel) (rest : list Channel) :
  RegExp_i (lit "u/" ++ interp (author comment)) = Ok re ->
  truthy (youtubeLink comment) = true ->
  slugOf comment = Some slug ->
  truthy slug = true ->
  youtube_channels_list (tick w) (Main.youtubeChannelListParams slug)
  = Ok {| items := Some (first :: rest) |} ->
  match snippet first, statistics first with
  | Some snip, Some _ => truthy_opt (description snip) = false
  | _, _ => True
  end ->
  Main.verifyChannel comment skip w = (Ok None, advance w).
Proof.
  intros Hre Hlink Hslug Htruthy Hans Hprofile.
  rewrite (verifyChannel_lookup _ _ _ Hre Hlink Hslug Htruthy).
  unfold bind, youtube_list. rewrite Hans. cbn [items].
  destruct (snippet first) as [snip|], (statistics first) as [stats|];
    try reflexivity.
  destruct (description snip) as [d|]; [|reflexivity].
  simpl in Hprofile. now rewrite Hprofile.
Qed.

(** The description does not name the author and the check is not
    skipped: nothing is returned. *)
Lemma verifyChannel_failed_proof (comment : Comment) (w : World)
    (re : jsstring -> bool) (slug d : jsstring)
    (first : Channel) (rest : list Channel) (stats : Statistics) :
  RegExp_i (lit "u/" ++ interp (author comment)) = Ok re ->
  truthy (youtubeLink comment) = true ->
  slugOf comment = Some slug ->
  truthy slug = true ->
  youtube_channels_list (tick w) (Main.youtubeChannelListParams slug)
  = Ok {| items := Some (first :: rest) |} ->
  snippet first = Some {| description := Some d |} ->
  statistics first = Some stats ->
  re d = false ->
  Main.verifyChannel comment false w = (Ok None, advance w).
Proof.
  intros Hre Hlink Hslug Htruthy Hans Hsnip Hstats Hd.
  rewrite (verifyChannel_lookup _ _ _ Hre Hlink Hslug Htruthy).
  unfold bind, youtube_list. rewrite Hans. cbn [items].
  rewrite Hsnip, Hstats. cbn [description]. rewrite Hd.
  now rewrite andb_false_r.
Qed.

(** The one path that returns a [Verification]. *)
Lemma verifyChannel_verified (comment : Comment) (skip : bool) (w : World)
    (re : jsstring -> bool) (slug d : jsstring) (n : number)
    (first : Channel) (rest : list Channel) (stats : Statistics) :
  RegExp_i (lit "u/" ++ interp (author comment)) = Ok re ->
  truthy (youtubeLink comment) = true ->
  slugOf comment = Some slug ->
  truthy slug = true ->
  youtube_channels_list (tick w) (Main.youtubeChannelListParams slug)
  = Ok {| items := Some (first :: rest) |} ->
  snippet first = Some {| description := Some d |} ->
  statistics first = Some stats ->
  truthy d = true ->
  re d || skip = true ->
  created_utc comment = Some n ->
  Main.verifyChannel comment skip w
  = (Ok (Some {| reddit_comment := comment;
                 youtube_snippet := {| description := Some d |};
                 youtube_statistics := Some stats |}),
     {| tick := S (tick w);
        approvedLinks := approvedLinks w ++ [approvedLinkOf comment n];
        approved_json := approved_json w;
        posts := posts w |}).
Proof.
  intros Hre Hlink Hslug Htruthy Hans Hsnip Hstats Hd Hproof Hn.
  rewrite (verifyChannel_lookup _ _ _ Hre Hlink Hslug Htruthy).
  unfold bind, youtube_list. rewrite Hans. cbn [items].
  rewrite Hsnip, Hstats. cbn [description]. rewrite Hd, Hproof, Hn.
  reflexivity.
Qed.

(** Without a marker the earlier revision returns the root replies that
    pass the tests, in their order. *)
Lemma Part000_without_more_output (env : Env) (article : jsstring)
    (startDate : Moment) (w : World) (children : list RedditChild) :
  reddit_get_article (tick w) article = Ok children ->
  findMore children = None ->
  fst (Part000.getRedditComments env article startDate w)
  = Ok (filterAt startDate (S (tick w))
          (map (toComment Part000.youtubeLinkReg)
             (filter notDeleted children))).
Proof.
  intros Hget Hmore.
  rewrite (Part000_without_more env _ startDate _ Hget Hmore).
  now rewrite comments_run.
Qed.

End Paths.

(** * Further properties of the script *)

(** ** Strings and patterns *)

Section Strings.

Lemma strip_Some (p s rest : jsstring) :
  strip p s = Some rest <-> s = p ++ rest.
Proof.
  revert s. induction p as [|x p IH]; intro s; simpl.
  - split; [now intros [= ->] | now intros ->].
  - destruct s as [|y s]; [split; discriminate|].
    destruct (N.eqb_spec x y) as [->|Hne].
    + rewrite IH. split; [now intros -> | now intros [= ->]].
    + split; [discriminate | intros [= E _]; now symmetry in E].
Qed.

Lemma strip_app (p rest : jsstring) : strip p (p ++ rest) = Some rest.
Proof. now apply strip_Some. Qed.

Lemma startsWith_app (p rest : jsstring) : startsWith p (p ++ rest) = true.
Proof. unfold startsWith. now rewrite strip_app. Qed.

Lemma startsWith_true (p s : jsstring) :
  startsWith p s = true <-> exists rest, s = p ++ rest.
Proof.
  unfold startsWith. destruct (strip p s) as [rest|] eqn:E.
  - apply strip_Some in E. split; [now exists rest | reflexivity].
  - split; [discriminate|]. intros [rest ->]. now rewrite strip_app in E.
Qed.

(** [includes] finds exactly the contiguous occurrences. *)
Lemma includes_true (p s : jsstring) :
  includes p s = true <-> exists pre post, s = pre ++ p ++ post.
Proof.
  induction s as [|c s IH].
  - simpl. rewrite orb_false_r, startsWith_true. split.
    + intros [rest E]. now exists [], rest.
    + intros [pre [post E]]. destruct pre; [now exists post|discriminate].
  - cbn [includes]. rewrite orb_true_iff, startsWith_true, IH. split.
    + intros [[rest E]|[pre [post E]]].
      * now exists [], rest.
      * exists (c :: pre), post. now rewrite E.
    + intros [pre [post E]]. destruct pre as [|c' pre].
      * left. now exists post.
      * right. injection E as _ E. now exists pre, post.
Qed.

Lemma takeWhileNot_split (stop : N -> bool) (s : jsstring) :
  exists rest,
    s = takeWhileNot stop s ++ rest
    /\ (rest = [] \/ exists c r, rest = c :: r /\ stop c = true).
Proof.
  induction s as [|c s [rest [E H]]]; simpl.
  - exists []. split; [reflexivity | now left].
  - destruct (stop c) eqn:Hc.
    + exists (c :: s). split; [reflexivity|]. right. now exists c, s.
    + exists rest. split; [|exact H]. simpl. congruence.
Qed.

Lemma takeWhileNot_clean (stop : N -> bool) (s : jsstring) :
  Forall (fun c => stop c = false) (takeWhileNot stop s).
Proof.
  induction s as [|c s IH]; simpl; [constructor|].
  destruct (stop c) eqn:Hc; constructor; assumption.
Qed.

(** A match at the start of [s] is a prefix of [s] that ends where [s]
    ends or where a unit of the excluded class stands. *)
Lemma matchHere_prefix (stop : N -> bool) (its : list item) :
  forall s m,
    matchHere its stop s = Some m ->
    exists rest,
      s = m ++ rest
      /\ (rest = [] \/ exists c r, rest = c :: r /\ stop c = true).
Proof.
  induction its as [|it its IH]; intros s m H.
  - simpl in H. injection H as <-. apply takeWhileNot_split.
  - destruct it as [l| |l]; simpl in H.
    + destruct (strip l s) as [s1|] eqn:E; [|discriminate].
      apply strip_Some in E.
      destruct (matchHere its stop s1) as [m1|] eqn:E1; [|discriminate].
      injection H as <-. destruct (IH _ _ E1) as [rest [E2 Hr]].
      exists rest. split; [|exact Hr]. now rewrite E, E2, app_assoc.
    + destruct s as [|c s1]; [discriminate|].
      destruct (lineTerminator c); [discriminate|].
      destruct (matchHere its stop s1) as [m1|] eqn:E1; [|discriminate].
      injection H as <-. destruct (IH _ _ E1) as [rest [E2 Hr]].
      exists rest. split; [|exact Hr]. now rewrite E2.
    + destruct (strip l s) as [s1|] eqn:E.
      * apply strip_Some in E.
        destruct (matchHere its stop s1) as [m1|] eqn:E1.
        -- injection H as <-. destruct (IH _ _ E1) as [rest [E2 Hr]].
           exists rest. split; [|exact Hr]. now rewrite E, E2, app_assoc.
        -- now apply IH.
      * now apply IH.
Qed.

(** What [match] returns stands in the subject, and what follows it there
    is nothing or a unit of the excluded class. *)
Lemma regexMatch_substring (r : regex) (s m : jsstring) :
  regexMatch r s = Some m ->
  exists pre rest,
    s = pre ++ m ++ rest
    /\ matchHere (reHead r) (reTailStop r) (m ++ rest) = Some m
    /\ (rest = [] \/ exists c q, rest = c :: q /\ reTailStop r c = true).
Proof.
  induction s as [|c s IH]; intro H.
  - simpl in H.
    destruct (matchHere (reHead r) (reTailStop r) []) as [m0|] eqn:E;
      [|discriminate].
    injection H as ->. destruct (matchHere_prefix _ _ _ E) as [rest [E2 Hr]].
    exists [], rest. simpl. rewrite <- E2. now repeat split.
  - cbn [regexMatch] in H.
    destruct (matchHere (reHead r) (reTailStop r) (c :: s)) as [m0|] eqn:E.
    + injection H as ->. destruct (matchHere_prefix _ _ _ E) as [rest [E2 Hr]].
      exists [], rest. simpl. rewrite <- E2. now repeat split.
    + destruct (IH H) as [pre [rest [E2 [Hm Hr]]]].
      exists (c :: pre), rest. simpl. rewrite <- E2. now repeat split.
Qed.

End Strings.

(** ** What the Comment Filter lets through *)

Section FilterOutput.

Context {host : Host}.

Lemma streq_eq (a b : jsstring) : streq a b = true <-> a = b.
Proof.
  revert b. induction a as [|x a IH]; destruct b as [|y b]; simpl;
    try (split; [discriminate | discriminate]); [now split|].
  rewrite andb_true_iff, N.eqb_eq, IH.
  split; [now intros [-> ->] | now intros [= -> ->]].
Qed.

Lemma notDeleted_author (child : RedditChild) :
  notDeleted child = true <-> child_author child <> Some (lit "[deleted]").
Proof.
  unfold notDeleted. destruct (child_author child) as [a|].
  - rewrite negb_true_iff. split.
    + intros H E. replace a with (lit "[deleted]") in H by congruence.
      vm_compute in H. discriminate.
    + intro H. destruct (streq a (lit "[deleted]")) eqn:E; [|reflexivity].
      apply streq_eq in E. now subst.
  - split; [discriminate | reflexivity].
Qed.

Lemma moment_unix_valid (x : option number) (t : Z) :
  moment_unix x = Some t -> exists q, x = Some (Fin q).
Proof.
  destruct x as [[| |q|]|]; try discriminate. intros _. now exists q.
Qed.

Lemma keptAt_true (startDate : Moment) (n : Z) (x : Comment) :
  keptAt startDate n x = true ->
  truthy (youtubeLink x) = true
  /\ (exists q, created x = Some (Fin q))
  /\ isBetween (moment_unix (created x)) startDate (Some n) = true.
Proof.
  unfold keptAt. intro H. apply andb_true_iff in H as [Hl Hb].
  repeat split; try assumption.
  unfold isBetween in Hb.
  destruct (moment_unix (created x)) as [t|] eqn:E; [|discriminate].
  now apply moment_unix_valid in E.
Qed.

Lemma filterAt_subseq (startDate : Moment) (l : list Comment) :
  forall t, subseq (filterAt startDate t l) l.
Proof.
  induction l as [|x l IH]; intro t; simpl; [constructor|].
  destruct (keptAt startDate (clock t) x);
    [apply subseq_keep | apply subseq_skip]; apply IH.
Qed.

Lemma filterAt_kept (startDate : Moment) (l : list Comment) :
  forall t,
    Forall (fun x => exists k, k < length l
                               /\ keptAt startDate (clock (t + k)) x = true)
      (filterAt startDate t l).
Proof.
  induction l as [|x l IH]; intro t; simpl; [constructor|].
  assert (Hrest : Forall (fun y => exists k, k < S (length l)
                            /\ keptAt startDate (clock (t + k)) y = true)
                    (filterAt startDate (S t) l)).
  { eapply Forall_impl; [|apply IH]. intros y [k [Hk Hy]].
    exists (S k). split; [lia|]. now replace (t + S k) with (S t + k) by lia. }
  destruct (keptAt startDate (clock t) x) eqn:K; [|exact Hrest].
  constructor; [|exact Hrest].
  exists 0. split; [lia|]. now rewrite Nat.add_0_r.
Qed.

Lemma subseq_map_filter {A B} (f : A -> B) (p : A -> bool) (l : list A) :
  subseq (map f (filter p l)) (map f l).
Proof.
  induction l as [|x l IH]; simpl; [constructor|].
  destruct (p x); simpl; [now apply subseq_keep | now apply subseq_skip].
Qed.

Lemma subseq_trans {A} (l1 l2 l3 : list A) :
  subseq l1 l2 -> subseq l2 l3 -> subseq l1 l3.
Proof.
  intros H12 H23. revert l1 H12.
  induction H23 as [|x l2 l3 _ IH|x l2 l3 _ IH]; intros l1 H12.
  - exact H12.
  - constructor. now apply IH.
  - inversion H12; subst.
    + apply subseq_skip. now apply IH.
    + apply subseq_keep. now apply IH.
Qed.

Lemma Forall_map_filter {A B} (f : A -> B) (p : A -> bool) (l : list A) :
  Forall (fun y => exists x, In x l /\ p x = true /\ y = f x)
    (map f (filter p l)).
Proof.
  apply Forall_forall. intros y Hy. apply in_map_iff in Hy as [x [<- Hx]].
  apply filter_In in Hx as [Hin Hp]. now exists x.
Qed.

Lemma subseq_Forall {A} (P : A -> Prop) (l1 l2 : list A) :
  subseq l1 l2 -> Forall P l2 -> Forall P l1.
Proof.
  induction 1 as [|x l1 l2 _ IH|x l1 l2 _ IH]; intro H.
  - constructor.
  - inversion H; subst. now apply IH.
  - inversion H; subst. constructor; [assumption | now apply IH].
Qed.

Lemma filterAt_output (reg : regex) (startDate : Moment)
    (allComments : list RedditChild) (t : nat) :
  let out :=
    filterAt startDate t
      (map (toComment reg) (filter notDeleted allComments)) in
  subseq out (map (toComment reg) allComments)
  /\ Forall
       (fun x =>
          truthy (youtubeLink x) = true
          /\ author x <> Some (lit "[deleted]")
          /\ (exists q, created x = Some (Fin q))
          /\ exists k,
               k < length allComments
               /\ isBetween (moment_unix (created x)) startDate
                    (Some (clock (t + k))) = true)
       out.
Proof.
  set (cands := map (toComment reg) (filter notDeleted allComments)).
  intro out. subst out. split.
  - apply subseq_trans with cands; [apply filterAt_subseq|].
    apply subseq_map_filter.
  - assert (Hc : Forall (fun x => author x <> Some (lit "[deleted]")) cands).
    { eapply Forall_impl; [|apply Forall_map_filter].
      intros y [x [_ [Hx ->]]]. now apply notDeleted_author. }
    pose proof (subseq_Forall (filterAt_subseq startDate cands t) Hc) as Ha.
    pose proof (filterAt_kept startDate cands t) as Hk.
    apply Forall_forall. intros x Hx.
    rewrite Forall_forall in Ha, Hk.
    destruct (Hk x Hx) as [k [Hlt K]].
    destruct (keptAt_true _ _ _ K) as [Hl [Hq Hb]].
    repeat split; try assumption; [now apply Ha|].
    exists k. split; [|exact Hb].
    unfold cands in Hlt. rewrite length_map in Hlt.
    pose proof (filter_length_le notDeleted allComments). lia.
Qed.

(** X1: The pipeline of lines 137-160 never throws; its output is the
    candidates' comments with some left out, in the candidates' order;
    every comment it returns has a non-empty link, an author other than
    the deleted-user sentinel, a finite [created], and that time was
    strictly inside the window at one of the clock readings of the call. *)
Theorem comments_output (reg : regex) (startDate : Moment)
    (allComments : list RedditChild) (w : World) :
  exists out,
    fst (comments reg startDate allComments w) = Ok out
    /\ subseq out (map (toComment reg) allComments)
    /\ Forall
         (fun x =>
            truthy (youtubeLink x) = true
            /\ author x <> Some (lit "[deleted]")
            /\ (exists q, created x = Some (Fin q))
            /\ exists k,
                 k < length allComments
                 /\ isBetween (moment_unix (created x)) startDate
                      (Some (clock (tick w + k))) = true)
         out.
Proof.
  rewrite comments_run. cbn [fst]. eexists. split; [reflexivity|].
  apply filterAt_output.
Qed.

(** With an invalid [startDate] the pipeline keeps nothing. *)
Lemma filterAt_invalid_start (l : list Comment) :
  forall t, filterAt None t l = [].
Proof.
  induction l as [|x l IH]; intro t; simpl; [reflexivity|].
  unfold keptAt, isBetween.
  destruct (moment_unix (created x)); now rewrite andb_false_r.
Qed.

End FilterOutput.

(** ** Relations kept along a run *)

Section Upholds.

Context {host : Host} (env : Env).

Variable R : World -> World -> Prop.

Hypothesis R_refl : forall w, R w w.
Hypothesis R_trans : forall w1 w2 w3, R w1 w2 -> R w2 w3 -> R w1 w3.
Hypothesis R_advance : forall w, R w (advance w).
Hypothesis R_posted : forall w p, isTierRequest env p -> R w (posted p w).
Hypothesis R_pushed : forall w ls, R w (pushed ls w).

Lemma upholds_ret {A} (a : A) : upholds R (ret a).
Proof. intro w. apply R_refl. Qed.

Lemma upholds_throw {A} (e : Error) : upholds R (@throw A e).
Proof. intro w. apply R_refl. Qed.

Lemma upholds_lift {A} (r : Result A) : upholds R (lift r).
Proof. intro w. apply R_refl. Qed.

Lemma upholds_bind {A B} (c : M A) (k : A -> M B) :
  upholds R c -> (forall a, upholds R (k a)) -> upholds R (bind c k).
Proof.
  intros Hc Hk w. unfold bind. specialize (Hc w).
  destruct (c w) as [[a|e] w']; simpl in *.
  - eapply R_trans; [exact Hc | apply Hk].
  - exact Hc.
Qed.

Lemma upholds_now : upholds R now.
Proof. intro w. apply R_advance. Qed.

Lemma upholds_reddit_get (a : jsstring) : upholds R (reddit_get a).
Proof. intro w. apply R_advance. Qed.

Lemma upholds_reddit_morechildren (a b : jsstring) :
  upholds R (reddit_morechildren a b).
Proof. intro w. apply R_advance. Qed.

Lemma upholds_youtube_list (p : ChannelsListParams) :
  upholds R (youtube_list p).
Proof. intro w. apply R_advance. Qed.

Lemma upholds_readFile : upholds R readFile.
Proof. intro w. apply R_refl. Qed.

Lemma upholds_push (ls : list ApprovedLink) : upholds R (push ls).
Proof. intro w. apply R_pushed. Qed.

Lemma upholds_post (p : FlairPost) :
  isTierRequest env p -> upholds R (reddit_post_flair p).
Proof. intros Hp w. now apply R_posted. Qed.

Lemma upholds_forEach {A} (f : A -> M unit) (l : list A) :
  (forall x, upholds R (f x)) -> upholds R (forEach f l).
Proof.
  intro Hf. induction l as [|x l IH]; simpl.
  - apply upholds_ret.
  - apply upholds_bind; [apply Hf | intros _; exact IH].
Qed.

Lemma R_advanceBy (k : nat) : forall w, R w (advanceBy k w).
Proof.
  induction k as [|k IH]; intro w.
  - rewrite advanceBy_0. apply R_refl.
  - rewrite <- advanceBy_S. eapply R_trans; [apply R_advance | apply IH].
Qed.

Lemma upholds_comments (reg : regex) (startDate : Moment)
    (l : list RedditChild) : upholds R (comments reg startDate l).
Proof. intro w. rewrite comments_run. apply R_advanceBy. Qed.

Lemma upholds_Main_getRedditComments (a : jsstring) (startDate : Moment) :
  upholds R (Main.getRedditComments env a startDate).
Proof.
  unfold Main.getRedditComments.
  apply upholds_bind; [apply upholds_reddit_get | intro children].
  destruct (findMore children); [|apply upholds_ret].
  apply upholds_bind; [apply upholds_reddit_morechildren | intro things].
  apply upholds_comments.
Qed.

Lemma upholds_Part000_getRedditComments (a : jsstring)
    (startDate : Moment) :
  upholds R (Part000.getRedditComments env a startDate).
Proof.
  unfold Part000.getRedditComments.
  apply upholds_bind; [apply upholds_reddit_get | intro children].
  apply upholds_bind; [|intro; apply upholds_comments].
  destruct (findMore children); [|apply upholds_ret].
  apply upholds_bind; [apply upholds_reddit_morechildren | intro things].
  apply upholds_ret.
Qed.

Lemma upholds_Main_verifyChannel (comment : Comment) (skip : bool) :
  upholds R (Main.verifyChannel comment skip).
Proof.
  unfold Main.verifyChannel.
  apply upholds_bind; [apply upholds_lift | intro re].
  destruct (negb (truthy (youtubeLink comment))); [apply upholds_ret|].
  destruct (negb (truthy_opt _)); [apply upholds_ret|].
  apply upholds_bind; [apply upholds_youtube_list | intro channel].
  destruct (items channel) as [[|first rest]|];
    [apply upholds_throw | | apply upholds_ret].
  destruct (snippet first) as [snip|], (statistics first) as [stats|];
    try apply upholds_ret.
  destruct (description snip) as [d|]; [|apply upholds_ret].
  destruct (truthy d); [|apply upholds_ret].
  destruct (re d || skip); [|apply upholds_ret].
  destruct (created_utc comment); [|apply upholds_throw].
  apply upholds_bind; [apply upholds_push | intro; apply upholds_ret].
Qed.

Lemma upholds_Part000_verifyChannel (comment : Comment) :
  upholds R (Part000.verifyChannel comment).
Proof.
  unfold Part000.verifyChannel.
  apply upholds_bind; [apply upholds_lift | intro re].
  destruct (negb (truthy (youtubeLink comment))); [apply upholds_ret|].
  destruct (negb (truthy_opt _)); [apply upholds_ret|].
  apply upholds_bind; [apply upholds_youtube_list | intro channel].
  destruct (items channel) as [[|first rest]|];
    [apply upholds_throw | | apply upholds_ret].
  destruct (snippet first) as [snip|], (statistics first) as [stats|];
    try apply upholds_ret.
  destruct (description snip) as [d|]; [|apply upholds_ret].
  destruct (truthy d); [|apply upholds_ret].
  destruct (re d); apply upholds_ret.
Qed.

Lemma setFlair_request (v : Verification) (w : World) :
  Main.setFlair env v w = (Ok tt, w)
  \/ exists p, isTierRequest env p
               /\ Main.setFlair env v w = reddit_post_flair p w.
Proof.
  unfold Main.setFlair.
  destruct (youtube_statistics v) as [stats|]; [|now left].
  destruct (truthy_opt (subscriberCount stats)
            && truthy_opt (viewCount stats)); [|now left].
  right.
  set (subCount := ToNumber ToNumber_other (interp (subscriberCount stats))).
  set (viewCount' := ToNumber ToNumber_other (interp (viewCount stats))).
  exists (tierPost env (isTopTier env subCount viewCount')
            (author (reddit_comment v)) subCount viewCount').
  split; [|reflexivity].
  now exists (isTopTier env subCount viewCount'),
    (author (reddit_comment v)), subCount, viewCount'.
Qed.

Lemma upholds_Main_setFlair (v : Verification) :
  upholds R (Main.setFlair env v).
Proof.
  intro w. destruct (setFlair_request v w) as [->|[p [Hp ->]]].
  - apply R_refl.
  - now apply upholds_post.
Qed.

(** The two revisions set the flair in the same way. *)
Lemma Part000_setFlair_eq (v : Verification) :
  Part000.setFlair env v = Main.setFlair env v.
Proof. reflexivity. Qed.

Lemma upholds_Part000_setFlair (v : Verification) :
  upholds R (Part000.setFlair env v).
Proof. rewrite Part000_setFlair_eq. apply upholds_Main_setFlair. Qed.

Lemma upholds_readApprovedLinksFromFile :
  upholds R Main.readApprovedLinksFromFile.
Proof.
  unfold Main.readApprovedLinksFromFile.
  apply upholds_bind; [apply upholds_readFile | intros [data|]].
  - apply upholds_lift.
  - apply upholds_ret.
Qed.

Lemma upholds_Main_verify_then_flair (comment : Comment) (skip : bool) :
  upholds R
    (verification <- Main.verifyChannel comment skip ;;
     match verification with
     | Some v => Main.setFlair env v
     | None => ret tt
     end).
Proof.
  apply upholds_bind; [apply upholds_Main_verifyChannel | intros [v|]].
  - apply upholds_Main_setFlair.
  - apply upholds_ret.
Qed.

Lemma upholds_updateFlairForApprovedLinks (links : list ApprovedLink) :
  upholds R (Main.updateFlairForApprovedLinks env links).
Proof.
  apply upholds_forEach. intro link. apply upholds_Main_verify_then_flair.
Qed.

(** All of [main] after the stored links are read and pushed. *)
Lemma upholds_Main_main_rest (st : ApprovedFile) :
  upholds R (mainAfterSeed env st).
Proof.
  unfold mainAfterSeed.
  apply upholds_bind; [apply upholds_updateFlairForApprovedLinks | intro].
  apply upholds_bind.
  - destruct (truthy_opt _); [apply upholds_ret|].
    apply upholds_bind; [apply upholds_now | intro; apply upholds_ret].
  - intro startDate.
    apply upholds_bind; [apply upholds_Main_getRedditComments | intro cs].
    apply upholds_bind; [|intro; apply upholds_ret].
    apply upholds_forEach. intro c. apply upholds_Main_verify_then_flair.
Qed.

Lemma upholds_Main_main : upholds R (Main.main env).
Proof.
  unfold Main.main.
  apply upholds_bind; [apply upholds_readApprovedLinksFromFile | intro st].
  apply upholds_bind; [apply upholds_push | intro].
  apply (upholds_Main_main_rest st).
Qed.

Lemma upholds_Part000_main : upholds R (Part000.main env).
Proof.
  unfold Part000.main.
  apply upholds_bind; [apply upholds_now | intro n].
  apply upholds_bind; [apply upholds_Part000_getRedditComments | intro cs].
  apply upholds_forEach. intro c.
  apply upholds_bind; [apply upholds_Part000_verifyChannel | intros [v|]].
  - apply upholds_Part000_setFlair.
  - apply upholds_ret.
Qed.

End Upholds.

(** ** What a whole run does to the approved links and to the flairs *)

Section Runs.

Context {host : Host} (env : Env).

Lemma follows_refl (w : World) : follows env w w.
Proof.
  split.
  - exists []. now rewrite app_nil_r.
  - exists []. split; [now rewrite app_nil_r | constructor].
Qed.

Lemma follows_trans (w1 w2 w3 : World) :
  follows env w1 w2 -> follows env w2 w3 -> follows env w1 w3.
Proof.
  intros [[l1 E1] [p1 [F1 H1]]] [[l2 E2] [p2 [F2 H2]]]. split.
  - exists (l1 ++ l2). now rewrite E2, E1, app_assoc.
  - exists (p1 ++ p2). split.
    + now rewrite F2, F1, app_assoc.
    + apply Forall_app. now split.
Qed.

Lemma follows_advance (w : World) : follows env w (advance w).
Proof.
  split.
  - exists []. simpl. now rewrite app_nil_r.
  - exists []. split; [simpl; now rewrite app_nil_r | constructor].
Qed.

Lemma follows_posted (w : World) (p : FlairPost) :
  isTierRequest env p -> follows env w (posted p w).
Proof.
  intro Hp. split.
  - exists []. simpl. now rewrite app_nil_r.
  - exists [p]. split; [reflexivity | now constructor].
Qed.

Lemma follows_pushed (w : World) (ls : list ApprovedLink) :
  follows env w (pushed ls w).
Proof.
  split.
  - now exists ls.
  - exists []. split; [simpl; now rewrite app_nil_r | constructor].
Qed.

Lemma followsUnrecorded_refl (w : World) : followsUnrecorded env w w.
Proof.
  repeat split. exists []. split; [now rewrite app_nil_r | constructor].
Qed.

Lemma followsUnrecorded_trans (w1 w2 w3 : World) :
  followsUnrecorded env w1 w2 -> followsUnrecorded env w2 w3 ->
  followsUnrecorded env w1 w3.
Proof.
  intros [E1 [J1 [p1 [F1 H1]]]] [E2 [J2 [p2 [F2 H2]]]].
  split; [congruence|]. split; [congruence|].
  exists (p1 ++ p2). split.
  - now rewrite F2, F1, app_assoc.
  - apply Forall_app. now split.
Qed.

Lemma followsUnrecorded_advance (w : World) :
  followsUnrecorded env w (advance w).
Proof.
  repeat split. exists []. split; [simpl; now rewrite app_nil_r|constructor].
Qed.

Lemma followsUnrecorded_posted (w : World) (p : FlairPost) :
  isTierRequest env p -> followsUnrecorded env w (posted p w).
Proof.
  intro Hp. repeat split. exists [p]. split; [reflexivity | now constructor].
Qed.

Lemma main_follows (w : World) : follows env w (snd (Main.main env w)).
Proof.
  apply (upholds_Main_main (follows env) follows_refl follows_trans
           follows_advance follows_posted follows_pushed).
Qed.

(** X17: Over a whole run of [main], whether it completes or throws, the
    in-memory [approvedLinks] only grows at its end: no entry is removed,
    changed or reordered. *)
Theorem main_only_appends_approved_links (w : World) :
  exists ls, approvedLinks (snd (Main.main env w)) = approvedLinks w ++ ls.
Proof. exact (proj1 (main_follows w)). Qed.

Lemma tierRequest_text (p : FlairPost) :
  isTierRequest env p ->
  text p <> []
  /\ post_path p = interp (SUBREDDIT env) ++ lit "/api/selectflair".
Proof.
  intros [top [a [s [q ->]]]]. split; [|reflexivity].
  simpl. unfold Main.flairText. discriminate.
Qed.

(** X18: Every request a run of [main] sends is one [setFlair] builds: posted
    to the [selectflair] path of the subreddit, with template and emoji of
    one tier and a text that is not empty.  In particular no run sends the
    request of [removeFlair]. *)
Theorem main_sends_tier_requests_only (w : World) :
  exists ps,
    posts (snd (Main.main env w)) = posts w ++ ps
    /\ Forall
         (fun p =>
            isTierRequest env p
            /\ text p <> []
            /\ post_path p = interp (SUBREDDIT env) ++ lit "/api/selectflair"
            /\ forall username w0,
                 posts (snd (Main.removeFlair env username w0))
                 <> posts w0 ++ [p])
         ps.
Proof.
  destruct (main_follows w) as [_ [ps [E H]]]. exists ps. split; [exact E|].
  eapply Forall_impl; [|exact H]. intros p Hp.
  destruct (tierRequest_text Hp) as [Ht Hpath].
  repeat split; try assumption.
  intros username w0 Heq. simpl in Heq. apply app_inv_head in Heq.
  injection Heq as Heq. apply Ht. now rewrite <- Heq.
Qed.

(** X22: The earlier revision keeps no record: a run leaves [approvedLinks] and
    [approved.json] as they were, and sends tier requests only. *)
Theorem Part000_main_keeps_no_record (w : World) :
  let w' := snd (Part000.main env w) in
  approvedLinks w' = approvedLinks w
  /\ approved_json w' = approved_json w
  /\ exists ps, posts w' = posts w ++ ps /\ Forall (isTierRequest env) ps.
Proof.
  apply (upholds_Part000_main (followsUnrecorded env)
           followsUnrecorded_refl followsUnrecorded_trans
           followsUnrecorded_advance followsUnrecorded_posted).
Qed.

Lemma main_with_file (w : World) (data : jsstring) (st : ApprovedFile) :
  approved_json w = Some data ->
  JSON_parse data = Ok st ->
  Main.main env w = mainAfterSeed env st (pushed (file_approvedLinks st) w).
Proof.
  intros Hfile Hparse. unfold Main.main. unfold bind at 1.
  unfold Main.readApprovedLinksFromFile. unfold bind at 1, readFile.
  rewrite Hfile. unfold lift. rewrite Hparse. reflexivity.
Qed.

Lemma main_without_file (w : World) :
  approved_json w = None ->
  Main.main env w
  = mainAfterSeed env {| lastChecked := None; file_approvedLinks := [] |}
      (pushed [] w).
Proof.
  intro Hfile. unfold Main.main. unfold bind at 1.
  unfold Main.readApprovedLinksFromFile. unfold bind at 1, readFile.
  rewrite Hfile. reflexivity.
Qed.

(** X19: When [approved.json] parses, the run first pushes its links: they
    stand in [approvedLinks] right after what was there, before anything
    the run approves. *)
Theorem main_seeds_stored_links (w : World) (data : jsstring)
    (st : ApprovedFile) :
  approved_json w = Some data ->
  JSON_parse data = Ok st ->
  exists ls,
    approvedLinks (snd (Main.main env w))
    = approvedLinks w ++ file_approvedLinks st ++ ls.
Proof.
  intros Hfile Hparse.
  rewrite (main_with_file w Hfile Hparse).
  destruct (upholds_Main_main_rest (follows env) follows_refl
              follows_trans follows_advance follows_posted
              follows_pushed st (pushed (file_approvedLinks st) w))
    as [[ls E] _].
  exists ls. rewrite E. simpl. now rewrite <- app_assoc.
Qed.

(** X20: When [approved.json] is there and [JSON.parse] throws, [main] throws
    the same error at once: no service is called and nothing changes. *)
Theorem main_unreadable_file (w : World) (data : jsstring) (e : Error) :
  approved_json w = Some data ->
  JSON_parse data = Throw e ->
  Main.main env w = (Throw e, w).
Proof.
  intros Hfile Hparse. unfold Main.main. unfold bind at 1.
  unfold Main.readApprovedLinksFromFile. unfold bind at 1, readFile.
  rewrite Hfile. unfold lift. now rewrite Hparse.
Qed.

End Runs.

(** ** The Comment Filter on a thread *)

Section Threads.

Context {host : Host} (env : Env).

(** X2: With an overflow marker in the root replies and both fetches answered,
    [getRedditComments] returns comments of the root replies followed by
    comments of the overflow replies, each group in its order, some left
    out; every comment returned has a non-empty link, an author other than
    the deleted-user sentinel and a finite [created] that was strictly
    inside the window at a clock reading of the call. *)
Theorem Main_getRedditComments_output (article : jsstring)
    (startDate : Moment) (w : World) (children things : list RedditChild)
    (more : RedditChild) :
  reddit_get_article (tick w) article = Ok children ->
  findMore children = Some more ->
  reddit_get_morechildren (S (tick w))
    (lit "t3_" ++ interp (ARTICLE env))
    (join (lit ",") (child_children more)) = Ok things ->
  exists out,
    fst (Main.getRedditComments env article startDate w) = Ok out
    /\ subseq out
         (map (toComment Main.youtubeLinkReg) children
          ++ map (toComment Main.youtubeLinkReg) things)
    /\ Forall
         (fun x =>
            truthy (youtubeLink x) = true
            /\ author x <> Some (lit "[deleted]")
            /\ (exists q, created x = Some (Fin q))
            /\ exists n, isBetween (moment_unix (created x)) startDate
                           (Some (clock n)) = true)
         out.
Proof.
  intros Hget Hmore Hextra.
  rewrite (Main_with_more env _ startDate _ Hget Hmore Hextra).
  rewrite comments_run. cbn [fst]. eexists. split; [reflexivity|].
  destruct (filterAt_output Main.youtubeLinkReg startDate
              (children ++ things) (tick (advance (advance w))))
    as [Hsub Hall].
  split; [now rewrite <- map_app|].
  eapply Forall_impl; [|exact Hall].
  intros x [Hl [Ha [Hq [k [_ Hb]]]]]. repeat split; try assumption.
  now exists (tick (advance (advance w)) + k).
Qed.

(** X3: The earlier revision does the same with or without a marker; without
    one the candidates are the root replies. *)
Theorem Part000_getRedditComments_output (article : jsstring)
    (startDate : Moment) (w : World) (children things : list RedditChild) :
  reddit_get_article (tick w) article = Ok children ->
  match findMore children with
  | Some more =>
      reddit_get_morechildren (S (tick w))
        (lit "t3_" ++ interp (ARTICLE env))
        (join (lit ",") (child_children more)) = Ok things
  | None => things = []
  end ->
  exists out,
    fst (Part000.getRedditComments env article startDate w) = Ok out
    /\ subseq out
         (map (toComment Part000.youtubeLinkReg) children
          ++ map (toComment Part000.youtubeLinkReg) things)
    /\ Forall
         (fun x =>
            truthy (youtubeLink x) = true
            /\ author x <> Some (lit "[deleted]")
            /\ (exists q, created x = Some (Fin q))
            /\ exists n, isBetween (moment_unix (created x)) startDate
                           (Some (clock n)) = true)
         out.
Proof.
  intros Hget Hextra.
  assert (Hrun : exists w1,
             Part000.getRedditComments env article startDate w
             = comments Part000.youtubeLinkReg startDate
                 (children ++ things) w1).
  { unfold Part000.getRedditComments, bind, reddit_get. rewrite Hget.
    destruct (findMore children) as [more|].
    - unfold reddit_morechildren. simpl tick. rewrite Hextra.
      now eexists.
    - subst things. rewrite app_nil_r. now eexists. }
  destruct Hrun as [w1 ->].
  rewrite comments_run. cbn [fst]. eexists. split; [reflexivity|].
  destruct (filterAt_output Part000.youtubeLinkReg startDate
              (children ++ things) (tick w1)) as [Hsub Hall].
  split; [now rewrite <- map_app|].
  eapply Forall_impl; [|exact Hall].
  intros x [Hl [Ha [Hq [k [_ Hb]]]]]. repeat split; try assumption.
  now exists (tick w1 + k).
Qed.

(** With an invalid [startDate], [getRedditComments] returns no comment
    (or throws what a fetch threw). *)
Lemma Main_getRedditComments_invalid_start (article : jsstring)
    (w : World) :
  fst (Main.getRedditComments env article None w) = Ok []
  \/ exists e, fst (Main.getRedditComments env article None w) = Throw e.
Proof.
  unfold Main.getRedditComments, bind, reddit_get.
  destruct (reddit_get_article _ _) as [children|e]; [|right; now exists e].
  destruct (findMore children) as [more|]; [|now left].
  unfold reddit_morechildren.
  destruct (reddit_get_morechildren _ _ _) as [things|e];
    [|right; now exists e].
  left. rewrite comments_run. simpl. now rewrite filterAt_invalid_start.
Qed.

(** X21: A first run (no [approved.json]) whose look-back cannot be computed,
    [moment.utc().subtract(PREVIOUS_DAYS, "days")] being invalid, verifies
    nobody: it leaves [approvedLinks] alone and sends no request, without
    any error of its own. *)
Theorem main_first_run_invalid_lookback (w : World) :
  approved_json w = None ->
  moment_subtract_days (Some (clock (tick w))) (PREVIOUS_DAYS env) = None ->
  let r := Main.main env w in
  approvedLinks (snd r) = approvedLinks w
  /\ posts (snd r) = posts w
  /\ (fst r = Ok tt
      \/ exists e,
           fst r = Throw e
           /\ fst (Main.getRedditComments env
                     (interp (SUBREDDIT env) ++ lit "/comments/"
                      ++ interp (ARTICLE env))
                     None (advance w)) = Throw e).
Proof.
  intros Hfile Hdays r. subst r. rewrite (main_without_file env w Hfile).
  set (article := interp (SUBREDDIT env) ++ lit "/comments/"
                  ++ interp (ARTICLE env)).
  change (mainAfterSeed env _ (pushed [] w))
    with (bind
            (Main.getRedditComments env article
               (moment_subtract_days (Some (clock (tick w)))
                  (PREVIOUS_DAYS env)))
            (fun cs =>
               forEach
                 (fun comment =>
                    verification <- Main.verifyChannel comment false ;;
                    match verification with
                    | Some v => Main.setFlair env v
                    | None => ret tt
                    end)
                 cs ;;;
               ret tt)
            (advance (pushed [] w))).
  replace (advance (pushed [] w)) with (advance w)
    by (unfold advance, pushed; simpl; now rewrite app_nil_r).
  rewrite Hdays.
  pose proof (upholds_Main_getRedditComments env
                (fun a b => approvedLinks b = approvedLinks a
                            /\ posts b = posts a)
                (fun a => conj eq_refl eq_refl)
                (fun a b c H1 H2 =>
                   conj (eq_trans (proj1 H2) (proj1 H1))
                        (eq_trans (proj2 H2) (proj2 H1)))
                (fun a => conj eq_refl eq_refl)
                article None (advance w)) as [Ha Hp].
  simpl approvedLinks in Ha. simpl posts in Hp.
  pose proof (Main_getRedditComments_invalid_start article (advance w))
    as E.
  destruct (Main.getRedditComments env article None (advance w))
    as [[out|e'] w2] eqn:G; unfold bind; rewrite G; simpl in *.
  - destruct E as [E|[e E]]; [|discriminate]. injection E as ->.
    simpl. repeat split; try assumption. now left.
  - repeat split; try assumption. right. now exists e'.
Qed.

End Threads.

(** ** The Link Extractor *)

Section Extractor.

Lemma Main_matchHere_shape (s m : jsstring) :
  matchHere (reHead Main.youtubeLinkReg) linkStop s = Some m ->
  exists path,
    Forall (fun c => linkStop c = false) path
    /\ (m = lit "https://www.youtube.com" ++ path
        \/ m = lit "https://youtube.com" ++ path).
Proof.
  unfold Main.youtubeLinkReg. cbn [reHead matchHere]. intro H.
  destruct (strip (lit "https://") s) as [s1|]; [|discriminate].
  destruct (strip (lit "www.") s1) as [s2|].
  - destruct (strip (lit "youtube.com") s2) as [s3|].
    + injection H as <-. exists (takeWhileNot linkStop s3).
      split; [apply takeWhileNot_clean | now left].
    + destruct (strip (lit "youtube.com") s1) as [s3|]; [|discriminate].
      injection H as <-. exists (takeWhileNot linkStop s3).
      split; [apply takeWhileNot_clean | now right].
  - destruct (strip (lit "youtube.com") s1) as [s3|]; [|discriminate].
    injection H as <-. exists (takeWhileNot linkStop s3).
    split; [apply takeWhileNot_clean | now right].
Qed.

(** X4: Whatever the reply, the link [main.ts] extracts is empty or starts
    with [https://www.youtube.com] or [https://youtube.com], and holds no
    white space, bracket or parenthesis after that. *)
Theorem extracted_link_shape (child : RedditChild) :
  let link := youtubeLink (toComment Main.youtubeLinkReg child) in
  link = []
  \/ exists path,
       Forall (fun c => linkStop c = false) path
       /\ (link = lit "https://www.youtube.com" ++ path
           \/ link = lit "https://youtube.com" ++ path).
Proof.
  unfold toComment. cbn [youtubeLink].
  destruct (truthy_opt (child_body child)).
  - destruct (regexMatch Main.youtubeLinkReg (interp (child_body child)))
      as [m|] eqn:E; [|now left].
    destruct (truthy m); [|now left]. right.
    destruct (regexMatch_substring _ _ E) as [pre [rest [_ [Hm _]]]].
    exact (Main_matchHere_shape _ Hm).
  - right. exists []. split; [constructor | now left].
Qed.



Lemma strip_extension_aux (x : N) (tail P : jsstring) :
  (forall y, In y P -> N.eqb y x = false) ->
  forall p, strip P p = None -> strip P (p ++ x :: tail) = None.
Proof.
  induction P as [|y P IH]; intros HP p H; [discriminate|].
  destruct p as [|c p]; simpl in *.
  - now rewrite (HP y (or_introl eq_refl)).
  - destruct (N.eqb y c); [|reflexivity].
    apply IH; [|exact H]. intros z Hz. apply HP. now right.
Qed.

Lemma strip_https_extension (p tail : jsstring) :
  p <> [] ->
  strip (lit "https://") p = None ->
  strip (lit "https://") (p ++ 104%N :: tail) = None.
Proof.
  intros Hne H. destruct p as [|c1 p]; [congruence|]. clear Hne.
  change (lit "https://") with (104%N :: lit "ttps://") in *.
  cbn [strip app] in *.
  destruct (N.eqb 104 c1); [|reflexivity].
  apply strip_extension_aux; [|exact H].
  intros y Hy. simpl in Hy.
  repeat (destruct Hy as [<-|Hy]; [reflexivity|]). contradiction.
Qed.

Lemma Main_no_match_before (p tail : jsstring) :
  p <> [] ->
  startsWith (lit "https://") p = false ->
  matchHere (reHead Main.youtubeLinkReg) linkStop (p ++ 104%N :: tail)
  = None.
Proof.
  intros Hne H. unfold Main.youtubeLinkReg. cbn [reHead matchHere].
  unfold startsWith in H.
  destruct (strip (lit "https://") p) eqn:E; [discriminate|].
  now rewrite (strip_https_extension tail Hne E).
Qed.

(** X6: A body whose first [https://] opens a link on the [www.] host or on
    the bare host: that link is extracted, up to the first white space,
    bracket or parenthesis. *)
Theorem extract_first_link (www : bool) (pre path rest : jsstring) :
  includes (lit "https://") pre = false ->
  Forall (fun c => linkStop c = false) path ->
  (rest = [] \/ exists c r, rest = c :: r /\ linkStop c = true) ->
  let link :=
    (if www then lit "https://www.youtube.com"
     else lit "https://youtube.com") ++ path in
  regexMatch Main.youtubeLinkReg (pre ++ link ++ rest) = Some link.
Proof.
  intros Hpre Hpath Hrest link. subst link.
  induction pre as [|c pre IH].
  - cbn [app]. rewrite <- app_assoc. destruct www.
    + apply (extract_www_link Hpath Hrest).
    + apply (extract_bare_link Hpath Hrest).
  - cbn [includes] in Hpre. apply orb_false_iff in Hpre as [Hs Hi].
    change ((c :: pre) ++ ?x) with (c :: (pre ++ x)).
    cbn [regexMatch].
    replace (c :: pre ++ _) with
      ((c :: pre) ++ 104%N
       :: (lit "ttps://" ++ (if www then lit "www." else [])
           ++ lit "youtube.com" ++ path ++ rest)).
    + rewrite Main_no_match_before; [|discriminate|exact Hs].
      exact (IH Hi).
    + destruct www; rewrite <- (app_assoc _ path rest); reflexivity.
Qed.

End Extractor.

(** ** The formatted link and the Channel Resolver *)

Section Resolver.

Context {host : Host}.

Lemma splitGo_char_hd (c : N) (s cur : jsstring) :
  hd [] (splitGo [c] 0 cur s) = rev cur ++ takeWhileNot (N.eqb c) s.
Proof.
  revert cur. induction s as [|x s IH]; intro cur; simpl.
  - now rewrite app_nil_r.
  - unfold startsWith. cbn [strip]. destruct (N.eqb c x); simpl.
    + now rewrite app_nil_r.
    + rewrite IH. simpl. now rewrite <- app_assoc.
Qed.

Lemma includes_char_takeWhileNot (c : N) (s : jsstring) :
  includes [c] (takeWhileNot (N.eqb c) s) = false.
Proof.
  induction s as [|x s IH]; [reflexivity|]. simpl takeWhileNot.
  destruct (N.eqb c x) eqn:E; [reflexivity|].
  cbn [includes]. rewrite IH. unfold startsWith. cbn [strip].
  now rewrite E.
Qed.

(** X7: The link [verifyChannel] looks up and records holds no [?]: what
    follows the first [?] of the formatted link is cut off. *)
Theorem formatted_link_has_no_query (comment : Comment) :
  includes (lit "?") (Main.formattedYoutubeLink comment) = false.
Proof.
  unfold Main.formattedYoutubeLink.
  change (lit "?") with [63%N]. unfold split.
  rewrite splitGo_char_hd. apply includes_char_takeWhileNot.
Qed.

Lemma replace_unfold (p r s : jsstring) :
  replace p r s
  = match strip p s with
    | Some rest => r ++ rest
    | None => match s with [] => [] | c :: s' => c :: replace p r s' end
    end.
Proof. destruct s; reflexivity. Qed.

Lemma replace_prefix (p r rest : jsstring) :
  replace p r (p ++ rest) = r ++ rest.
Proof. rewrite replace_unfold. now rewrite strip_app. Qed.

Lemma replace_absent (p r s : jsstring) :
  includes p s = false -> replace p r s = s.
Proof.
  induction s as [|c s IH]; intro H; rewrite replace_unfold.
  - simpl in H. rewrite orb_false_r in H. unfold startsWith in H.
    now destruct (strip p []).
  - cbn [includes] in H. apply orb_false_iff in H as [Hs Hi].
    unfold startsWith in Hs. destruct (strip p (c :: s)); [discriminate|].
    now rewrite IH.
Qed.

(** X8: Links on the mobile host, on the bare host and on the [www.] host
    with the same remainder are looked up and recorded as the same link,
    the one on the [www.] host. *)
Theorem hosts_formatted_alike (comment : Comment) (rest : jsstring) :
  includes (lit "https://youtube.com") rest = false ->
  includes (lit "https://m.youtube.com") rest = false ->
  let www := withLink comment (lit "https://www.youtube.com" ++ rest) in
  Main.formattedYoutubeLink
    (withLink comment (lit "https://m.youtube.com" ++ rest))
  = Main.formattedYoutubeLink www
  /\ Main.formattedYoutubeLink
       (withLink comment (lit "https://youtube.com" ++ rest))
     = Main.formattedYoutubeLink www.
Proof.
  intros Hbare Hmob www.
  assert (Hwww : replace (lit "https://m.youtube.com")
                   (lit "https://www.youtube.com")
                   (lit "https://www.youtube.com" ++ rest)
                 = lit "https://www.youtube.com" ++ rest).
  { apply replace_absent.
    change (includes (lit "https://m.youtube.com") rest = false).
    exact Hmob. }
  unfold Main.formattedYoutubeLink, www, withLink. cbn [youtubeLink].
  split.
  - rewrite (replace_absent (lit "https://youtube.com") _
               (lit "https://m.youtube.com" ++ rest)).
    + rewrite replace_prefix.
      rewrite (replace_absent (lit "https://youtube.com") _
                 (lit "https://www.youtube.com" ++ rest)).
      * now rewrite Hwww.
      * change (includes (lit "https://youtube.com") rest = false).
        exact Hbare.
    + change (includes (lit "https://youtube.com") rest = false).
      exact Hbare.
  - rewrite replace_prefix.
    rewrite (replace_absent (lit "https://youtube.com") _
               (lit "https://www.youtube.com" ++ rest)).
    + reflexivity.
    + change (includes (lit "https://youtube.com") rest = false).
      exact Hbare.
Qed.

End Resolver.

Section ResolverKeys.

Lemma splitGo_cons (sep : jsstring) (s : jsstring) :
  forall k cur, exists a l, splitGo sep k cur s = a :: l.
Proof.
  induction s as [|c s IH]; intros k cur; simpl.
  - now eexists _, _.
  - destruct k as [|k]; [|apply IH].
    destruct (startsWith sep (c :: s)); [now eexists _, _ | apply IH].
Qed.

(** A string that includes the separator splits in two pieces at least. *)
Lemma splitGo_includes (sep : jsstring) (s : jsstring) :
  sep <> [] ->
  forall cur, includes sep s = true ->
              exists a b l, splitGo sep 0 cur s = a :: b :: l.
Proof.
  intro Hsep. induction s as [|c s IH]; intros cur H.
  - destruct sep; [congruence | discriminate].
  - cbn [includes] in H. cbn [splitGo].
    destruct (startsWith sep (c :: s)).
    + destruct (splitGo_cons sep s (length sep - 1) []) as [b [l ->]].
      now eexists _, _, _.
    + simpl in H. now apply IH.
Qed.

Lemma split_includes (sep s : jsstring) :
  sep <> [] -> includes sep s = true ->
  exists b, nth_error (split sep s) 1 = Some b.
Proof.
  intros Hsep H. unfold split. destruct sep as [|x sep]; [congruence|].
  destruct (splitGo_includes (sep := x :: sep) s Hsep [] H)
    as [a [b [l ->]]].
  now exists b.
Qed.

(** A string that does not include the separator is its only piece. *)
Lemma splitGo_absent (sep : jsstring) (s : jsstring) :
  forall cur, includes sep s = false -> splitGo sep 0 cur s = [rev cur ++ s].
Proof.
  induction s as [|c s IH]; intros cur H; simpl.
  - now rewrite app_nil_r.
  - cbn [includes] in H. apply orb_false_iff in H as [Hs Hi].
    rewrite Hs, (IH _ Hi). simpl. now rewrite <- app_assoc.
Qed.


(** X10: A path that is [user/] and a name is looked up by that user name, a
    path that is [channel/] and an identifier by that identifier: the whole
    remainder of the path, provided it holds no further [user/] or
    [channel/]. *)
Theorem resolver_prefixed_paths (rest : jsstring) :
  includes (lit "user/") rest = false ->
  Main.youtubeChannelListParams (lit "user/" ++ rest)
  = {| part := [lit "snippet,statistics"]; forUsername := Some rest;
       id := None; forHandle := None |}
  /\ (includes (lit "channel/") rest = false ->
      truthy rest = true ->
      Main.youtubeChannelListParams (lit "channel/" ++ rest)
      = {| part := [lit "snippet,statistics"]; forUsername := None;
           id := Some [rest]; forHandle := None |}).
Proof.
  intro Hu. split.
  - unfold Main.youtubeChannelListParams.
    rewrite (proj2 (includes_true (lit "user/") (lit "user/" ++ rest)))
      by (now exists [], rest).
    unfold split.
    change (splitGo (lit "user/") 0 [] (lit "user/" ++ rest))
      with ([] :: splitGo (lit "user/") 0 [] rest).
    now rewrite (splitGo_absent _ _ [] Hu).
  - intros Hc Ht. unfold Main.youtubeChannelListParams.
    change (includes (lit "user/") (lit "channel/" ++ rest))
      with (includes (lit "user/") rest).
    rewrite Hu.
    rewrite (proj2 (includes_true (lit "channel/") (lit "channel/" ++ rest)))
      by (now exists [], rest).
    unfold split.
    change (splitGo (lit "channel/") 0 [] (lit "channel/" ++ rest))
      with ([] :: splitGo (lit "channel/") 0 [] rest).
    rewrite (splitGo_absent _ _ [] Hc).
    destruct rest; [discriminate | reflexivity].
Qed.

End ResolverKeys.

(** ** Edges of [verifyChannel], [setFlair] and the re-approval *)

Section Edges.

Context {host : Host} (env : Env).

(** X11: A comment whose link is empty, or whose formatted link has nothing
    after [https://www.youtube.com/], is turned away without a lookup: the
    world is as before. *)
Theorem verifyChannel_no_lookup (comment : Comment) (skip : bool)
    (w : World) (re : jsstring -> bool) :
  RegExp_i (lit "u/" ++ interp (author comment)) = Ok re ->
  youtubeLink comment = [] \/ truthy_opt (slugOf comment) = false ->
  Main.verifyChannel comment skip w = (Ok None, w).
Proof.
  intros Hre [H|H].
  - now apply verifyChannel_empty_link with re.
  - now apply verifyChannel_unresolvable with re.
Qed.

(** X13: Where the description does not name the author, the check fails, and
    [skipDescriptionCheck] alone turns the outcome into a verification
    with its push. *)
Theorem skip_bypasses_failed_proof (comment : Comment) (w : World)
    (re : jsstring -> bool) (slug d : jsstring) (n : number)
    (first : Channel) (rest : list Channel) (stats : Statistics) :
  RegExp_i (lit "u/" ++ interp (author comment)) = Ok re ->
  truthy (youtubeLink comment) = true ->
  slugOf comment = Some slug ->
  truthy slug = true ->
  youtube_channels_list (tick w) (Main.youtubeChannelListParams slug)
  = Ok {| items := Some (first :: rest) |} ->
  snippet first = Some {| description := Some d |} ->
  statistics first = Some stats ->
  truthy d = true ->
  created_utc comment = Some n ->
  re d = false ->
  Main.verifyChannel comment false w = (Ok None, advance w)
  /\ fst (Main.verifyChannel comment true w)
     = Ok (Some {| reddit_comment := comment;
                   youtube_snippet := {| description := Some d |};
                   youtube_statistics := Some stats |})
  /\ approvedLinks (snd (Main.verifyChannel comment true w))
     = approvedLinks w ++ [approvedLinkOf comment n].
Proof.
  intros Hre Hlink Hslug Htruthy Hans Hsnip Hstats Hd Hn Hfail. split.
  - eapply verifyChannel_failed_proof; eassumption.
  - erewrite verifyChannel_verified; try eassumption;
      [split; reflexivity | apply orb_true_r].
Qed.

Lemma setFlair_keeps_approvedLinks (v : Verification) (w : World) :
  approvedLinks (snd (Main.setFlair env v w)) = approvedLinks w.
Proof.
  destruct (setFlair_request env v w) as [->|[p [_ ->]]]; reflexivity.
Qed.

(** X14: Re-approval pushes again: for a stored link whose channel is found
    with a description and statistics, [updateFlairForApprovedLinks] adds
    to [approvedLinks] one more record for the same user, whatever the
    description says. *)
Theorem reapproval_pushes_again (link : ApprovedLink) (w : World)
    (re : jsstring -> bool) (slug d : jsstring)
    (first : Channel) (rest : list Channel) (stats : Statistics) :
  let comment :=
    {| author := userId link;
       created_utc := Some (parseInt (commentId link));
       youtubeLink := channelLink link;
       body := Some [];
       created := Some (ofZ 0) |} in
  RegExp_i (lit "u/" ++ interp (userId link)) = Ok re ->
  truthy (channelLink link) = true ->
  slugOf comment = Some slug ->
  truthy slug = true ->
  youtube_channels_list (tick w) (Main.youtubeChannelListParams slug)
  = Ok {| items := Some (first :: rest) |} ->
  snippet first = Some {| description := Some d |} ->
  statistics first = Some stats ->
  truthy d = true ->
  approvedLinks (snd (Main.updateFlairForApprovedLinks env [link] w))
  = approvedLinks w
    ++ [ {| userId := userId link;
            commentId := Number_toString (parseInt (commentId link));
            channelLink := Main.formattedYoutubeLink comment |} ].
Proof.
  intros comment Hre Hlink Hslug Htruthy Hans Hsnip Hstats Hd.
  unfold Main.updateFlairForApprovedLinks. cbn [forEach].
  fold comment. unfold bind at 1. unfold bind at 1.
  erewrite verifyChannel_verified; try eassumption;
    [|apply orb_true_r|reflexivity].
  match goal with
  | |- context [Main.setFlair env ?v ?w1] =>
      pose proof (setFlair_keeps_approvedLinks v w1) as Hkeep;
      destruct (Main.setFlair env v w1) as [[[]|e] w2]
  end; simpl in *; exact Hkeep.
Qed.

(** X16: Comparisons with [NaN] fail: when each comparison has a count or a
    threshold that is not a number, the profile is of the second tier, and
    [setFlair] still sends the request. *)
Theorem setFlair_not_a_number (v : Verification) (stats : Statistics)
    (sc vc : jsstring) (w : World) :
  youtube_statistics v = Some stats ->
  subscriberCount stats = Some sc ->
  viewCount stats = Some vc ->
  truthy sc = true ->
  truthy vc = true ->
  ToNumber ToNumber_other sc = NaN
  \/ Main.plus (Main.MINIMUM_SUB_COUNT env) = NaN ->
  ToNumber ToNumber_other vc = NaN
  \/ Main.plus (Main.MINIMUM_VIEW_COUNT env) = NaN ->
  posts (snd (Main.setFlair env v w))
  = posts w
    ++ [tierPost env false (author (reddit_comment v))
          (ToNumber ToNumber_other sc) (ToNumber ToNumber_other vc)].
Proof.
  intros Hstats Hsc Hvc Hs Hv Hsub Hview.
  rewrite (setFlair_run env v w Hstats Hsc Hvc Hs Hv). simpl.
  assert (Htop : isTopTier env (ToNumber ToNumber_other sc)
                   (ToNumber ToNumber_other vc) = false).
  { unfold isTopTier. apply orb_false_iff. split.
    - destruct Hsub as [->| ->]; [reflexivity|].
      now destruct (ToNumber ToNumber_other sc).
    - destruct Hview as [->| ->]; [reflexivity|].
      now destruct (ToNumber ToNumber_other vc). }
  now rewrite Htop.
Qed.

End Edges.

(** ** The two revisions of [verifyChannel] *)

Section Revisions.

Context {host : Host}.

Lemma split_absent (sep s : jsstring) :
  includes sep s = false -> split sep s = [s].
Proof.
  intro H. unfold split. destruct sep as [|x sep].
  - destruct s; discriminate.
  - now rewrite (splitGo_absent _ _ [] H).
Qed.

(** A path for which both revisions build the same request: it holds
    [user/]; or it holds [channel/] followed by something; or it holds
    neither and is not a handle. *)
Lemma params_alike (slug : jsstring) :
  includes (lit "user/") slug = true
  \/ (includes (lit "channel/") slug = true
      /\ nth_error (split (lit "channel/") slug) 1 <> Some [])
  \/ (includes (lit "channel/") slug = false
      /\ startsWith (lit "@") slug = false) ->
  Part000.youtubeChannelListParams slug = Main.youtubeChannelListParams slug.
Proof.
  unfold Part000.youtubeChannelListParams, Main.youtubeChannelListParams.
  intros [Hu|[[Hc Hne]|[Hc Hs]]].
  - now rewrite Hu.
  - destruct (includes (lit "user/") slug); [reflexivity|]. rewrite Hc.
    destruct (split_includes (sep := lit "channel/") slug) as [b Hb];
      [discriminate | exact Hc |].
    destruct b; [exfalso; apply Hne; exact Hb | now rewrite Hb].
  - destruct (includes (lit "user/") slug); [reflexivity|].
    now rewrite Hc, Hs.
Qed.

(** X23: On a link that needs no rewriting (no bare or mobile host in it, no
    [?] once formatted) and whose path is not a handle nor an empty
    [channel/], the earlier [verifyChannel] returns what the later one
    returns with the description check on; only the later one records the
    link. *)
Theorem revisions_verify_alike (comment : Comment) (w : World)
    (n : number) :
  includes (lit "https://youtube.com") (youtubeLink comment) = false ->
  includes (lit "https://m.youtube.com") (youtubeLink comment) = false ->
  includes (lit "?") (formatYoutubeLink (youtubeLink comment)) = false ->
  (forall slug,
     nth_error
       (split (lit "https://www.youtube.com/")
          (formatYoutubeLink (youtubeLink comment))) 1 = Some slug ->
     includes (lit "user/") slug = true
     \/ (includes (lit "channel/") slug = true
         /\ nth_error (split (lit "channel/") slug) 1 <> Some [])
     \/ (includes (lit "channel/") slug = false
         /\ startsWith (lit "@") slug = false)) ->
  created_utc comment = Some n ->
  fst (Part000.verifyChannel comment w)
  = fst (Main.verifyChannel comment false w)
  /\ approvedLinks (snd (Part000.verifyChannel comment w)) = approvedLinks w.
Proof.
  intros Hbare Hmob Hquery Hslug Hn.
  assert (Hlink : Main.formattedYoutubeLink comment
                  = formatYoutubeLink (youtubeLink comment)).
  { unfold Main.formattedYoutubeLink.
    rewrite (replace_absent _ _ _ Hbare), (replace_absent _ _ _ Hmob).
    now rewrite (split_absent _ _ Hquery). }
  unfold Part000.verifyChannel, Main.verifyChannel. rewrite Hlink.
  unfold bind, lift.
  destruct (RegExp_i _) as [re|e]; [|now split].
  destruct (negb (truthy (youtubeLink comment))); [now split|].
  destruct (nth_error _ 1) as [slug|] eqn:Es; [|now split].
  cbn [truthy_opt interp]. destruct (negb (truthy slug)); [now split|].
  rewrite (params_alike slug (Hslug slug eq_refl)).
  unfold youtube_list.
  destruct (youtube_channels_list _ _) as [channel|e]; [|now split].
  destruct (items channel) as [[|first rest]|]; try now split.
  destruct (snippet first) as [snip|], (statistics first) as [stats|];
    try now split.
  destruct (description snip) as [d|]; [|now split].
  destruct (truthy d); [|now split].
  rewrite orb_false_r. destruct (re d); [|now split].
  rewrite Hn. now split.
Qed.

End Revisions.

(** ** The properties above on the sample values *)

Lemma Main_getRedditComments_output_sample :
  exists out,
    fst (Main.getRedditComments (host := Cases.threadHost) Sample.env
           Sample.article Sample.startDate Sample.w0) = Ok out
    /\ subseq out
         (map (toComment Main.youtubeLinkReg)
            [Sample.alice; Sample.frank; Cases.marker]
          ++ map (toComment Main.youtubeLinkReg) [Sample.carol]).
Proof.
  destruct (Main_getRedditComments_output (host := Cases.threadHost)
              Sample.env Sample.article Sample.startDate Sample.w0
              (children := [Sample.alice; Sample.frank; Cases.marker])
              (things := [Sample.carol]) (more := Cases.marker)
              eq_refl eq_refl eq_refl) as [out [E [Hsub _]]].
  exists out. split; [exact E | exact Hsub].
Defined.

Lemma Part000_getRedditComments_output_sample :
  exists out,
    fst (Part000.getRedditComments (host := Cases.rootOnlyHost) Sample.env
           Sample.article Sample.startDate Sample.w0) = Ok out
    /\ subseq out
         (map (toComment Part000.youtubeLinkReg) [Sample.alice]
          ++ map (toComment Part000.youtubeLinkReg) []).
Proof.
  destruct (@Part000_getRedditComments_output Cases.rootOnlyHost
              Sample.env Sample.article Sample.startDate Sample.w0
              [Sample.alice] [] eq_refl eq_refl) as [out [E [Hsub _]]].
  exists out. split; [exact E | exact Hsub].
Defined.

Lemma main_first_run_invalid_lookback_sample :
  let r := Main.main (host := Cases.noLookbackHost) Sample.env Sample.w0 in
  approvedLinks (snd r) = [] /\ posts (snd r) = [].
Proof.
  destruct (main_first_run_invalid_lookback (host := Cases.noLookbackHost)
              Sample.env Sample.w0 eq_refl eq_refl) as [Ha [Hp _]].
  split; [exact Ha | exact Hp].
Defined.


Lemma extract_first_link_sample :
  regexMatch Main.youtubeLinkReg
    (lit "check out " ++ (lit "https://www.youtube.com" ++ lit "/channel/UC123")
     ++ lit " nice")
  = Some (lit "https://www.youtube.com" ++ lit "/channel/UC123").
Proof.
  apply (@extract_first_link true (lit "check out ") (lit "/channel/UC123")
           (lit " nice")).
  - reflexivity.
  - repeat constructor.
  - right. exists 32%N, (lit "nice"). split; reflexivity.
Defined.

Lemma hosts_formatted_alike_sample :
  Main.formattedYoutubeLink (host := Cases.plain)
    (withLink (Sample.commentOf Sample.dave)
       (lit "https://m.youtube.com" ++ lit "/@dave"))
  = lit "https://www.youtube.com/@dave".
Proof.
  rewrite (proj1 (hosts_formatted_alike (host := Cases.plain)
                    (Sample.commentOf Sample.dave) (lit "/@dave")
                    eq_refl eq_refl)).
  reflexivity.
Defined.

Lemma resolver_prefixed_paths_sample :
  Main.youtubeChannelListParams (lit "user/" ++ lit "frank")
  = {| part := [lit "snippet,statistics"];
       forUsername := Some (lit "frank"); id := None; forHandle := None |}
  /\ Main.youtubeChannelListParams (lit "channel/" ++ lit "UC123")
     = {| part := [lit "snippet,statistics"]; forUsername := None;
          id := Some [lit "UC123"]; forHandle := None |}.
Proof.
  split.
  - exact (proj1 (resolver_prefixed_paths (lit "frank") eq_refl)).
  - exact (proj2 (resolver_prefixed_paths (lit "UC123") eq_refl)
             eq_refl eq_refl).
Defined.

Lemma main_seeds_stored_links_sample :
  exists ls,
    approvedLinks
      (snd (Main.main (host := Cases.readingHost) Sample.env
              (Cases.withFile (lit "{}"))))
    = [] ++ [Cases.storedAlice] ++ ls.
Proof.
  exact (main_seeds_stored_links (host := Cases.readingHost) Sample.env
           (Cases.withFile (lit "{}")) (data := lit "{}")
           (st := Cases.storedState) eq_refl eq_refl).
Defined.

Lemma main_unreadable_file_sample :
  Main.main (host := Cases.plain) Sample.env (Cases.withFile (lit "{"))
  = (Throw SyntaxError, Cases.withFile (lit "{")).
Proof.
  exact (main_unreadable_file (host := Cases.plain) Sample.env
           (Cases.withFile (lit "{")) (data := lit "{") eq_refl eq_refl).
Defined.

Lemma verifyChannel_no_lookup_sample :
  Main.verifyChannel (host := Cases.plain) (Sample.commentOf Sample.bob)
    false Sample.w0
  = (Ok None, Sample.w0).
Proof.
  apply (verifyChannel_no_lookup (host := Cases.plain)
           (Sample.commentOf Sample.bob) false Sample.w0
           (re := fun s => includes (map Sample.lower (lit "u/bob"))
                             (map Sample.lower s))).
  - reflexivity.
  - right. reflexivity.
Defined.

Lemma skip_bypasses_failed_proof_sample :
  let h := Sample.host [] [] Cases.malloryFound Sample.time in
  Main.verifyChannel (host := h) (Sample.commentOf Sample.alice) false
    Sample.w0
  = (Ok None, advance Sample.w0)
  /\ approvedLinks
       (snd (Main.verifyChannel (host := h) (Sample.commentOf Sample.alice)
               true Sample.w0))
     = [Cases.storedAlice].
Proof.
  intro h.
  destruct (skip_bypasses_failed_proof (host := h)
              (Sample.commentOf Sample.alice) Sample.w0
              (re := fun s => includes (map Sample.lower (lit "u/alice"))
                                (map Sample.lower s))
              (slug := lit "channel/UC123")
              (d := lit "I'm u/mallory, welcome!")
              (n := ofZ 1700000000)
              (first := Sample.channelOf "mallory" "50000" "200000")
              (rest := [])
              (stats := {| subscriberCount := Some (lit "50000");
                           viewCount := Some (lit "200000") |})
              eq_refl eq_refl eq_refl eq_refl eq_refl eq_refl eq_refl
              eq_refl eq_refl eq_refl) as [Hoff [_ Hon]].
  split; [exact Hoff | exact Hon].
Defined.

Lemma reapproval_pushes_again_sample :
  let h := Sample.host [] [] Cases.aliceFound Sample.time in
  approvedLinks
    (snd (Main.updateFlairForApprovedLinks (host := h) Sample.env
            [Cases.storedAlice] (pushed [Cases.storedAlice] Sample.w0)))
  = [Cases.storedAlice; Cases.storedAlice].
Proof.
  intro h.
  exact (reapproval_pushes_again (host := h) Sample.env Cases.storedAlice
           (pushed [Cases.storedAlice] Sample.w0)
           (re := fun s => includes (map Sample.lower (lit "u/alice"))
                             (map Sample.lower s))
           (slug := lit "channel/UC123")
           (d := lit "I'm u/alice, welcome!")
           (first := Sample.channelOf "alice" "50000" "200000")
           (rest := [])
           (stats := {| subscriberCount := Some (lit "50000");
                        viewCount := Some (lit "200000") |})
           eq_refl eq_refl eq_refl eq_refl eq_refl eq_refl eq_refl eq_refl).
Defined.

Lemma setFlair_not_a_number_sample :
  posts (snd (Main.setFlair (host := Cases.plain) Sample.env
                (Sample.verificationOf "alice" "n/a" "n/a") Sample.w0))
  = [ {| post_path := lit "/r/videos/api/selectflair";
         name := Some (lit "alice");
         text := lit ":silver: Subs: NaN Views: NaN";
         flair_template_id := Some (lit "silver-template") |} ].
Proof.
  exact (setFlair_not_a_number (host := Cases.plain) Sample.env
           (Sample.verificationOf "alice" "n/a" "n/a")
           (stats := {| subscriberCount := Some (lit "n/a");
                        viewCount := Some (lit "n/a") |})
           (sc := lit "n/a") (vc := lit "n/a") Sample.w0
           eq_refl eq_refl eq_refl eq_refl eq_refl
           (or_introl eq_refl) (or_introl eq_refl)).
Defined.

Lemma verifyChannel_incomplete_profile_sample :
  Main.verifyChannel
    (host := Sample.host [] [] (Sample.found Cases.blank) Sample.time)
    (Sample.commentOf Sample.alice) true Sample.w0
  = (Ok None, advance Sample.w0).
Proof.
  apply (verifyChannel_incomplete_profile
           (host := Sample.host [] [] (Sample.found Cases.blank) Sample.time)
           (Sample.commentOf Sample.alice) true Sample.w0
           (re := fun s => includes (map Sample.lower (lit "u/alice"))
                             (map Sample.lower s))
           (slug := lit "channel/UC123") (first := Cases.blank) (rest := []));
    reflexivity.
Defined.

Lemma setFlair_skip_sample :
  Main.setFlair (host := Cases.plain) Sample.env Cases.withoutStatistics
    Sample.w0
  = (Ok tt, Sample.w0).
Proof.
  exact (setFlair_skip (host := Cases.plain) Sample.env
           Cases.withoutStatistics Sample.w0 I).
Defined.

Lemma revisions_verify_alike_sample :
  let h := Sample.host [] [] Cases.aliceFound Sample.time in
  fst (Part000.verifyChannel (host := h) (Sample.commentOf Sample.alice)
         Sample.w0)
  = fst (Main.verifyChannel (host := h) (Sample.commentOf Sample.alice)
           false Sample.w0).
Proof.
  intro h.
  refine (proj1 (revisions_verify_alike (host := h)
                   (Sample.commentOf Sample.alice) Sample.w0
                   (n := ofZ 1700000000) eq_refl eq_refl eq_refl _ eq_refl)).
  intros slug H. vm_compute in H. injection H as <-.
  right. left. split; [reflexivity | discriminate].
Defined.
